(** * Alarmclock: the control core of a Raspberry Pi Pico alarm clock

    A shallow embedding of [alarmclock.cpp]: the calendar helper
    [number_of_days], the body of the Core 1 control loop ([core1_main]),
    the body of the Core 0 display loop ([main]) and the alarm interrupt
    handler ([alarm_callback]), followed by the properties proved of them. *)

From Stdlib Require Import ZArith List Bool String Lia.
Import ListNotations.
Local Open Scope Z_scope.

(** ** Machine integers

    The globals of the program are fixed-width integers.  They are kept as
    [Z], and every conversion the C++ code performs on a store is written
    out: [Int.T z] is the value a variable of type [T] holds after [z] is
    assigned to it (two's complement for the signed types). *)

Module Int.

Definition uint8 (z : Z) : Z := z mod 256.
Definition uint16 (z : Z) : Z := z mod 65536.
Definition uint64 (z : Z) : Z := z mod 18446744073709551616.
Definition int8 (z : Z) : Z := (z + 128) mod 256 - 128.
Definition int16 (z : Z) : Z := (z + 32768) mod 65536 - 32768.

End Int.

(** ** Constants ([#define]s and tables) *)

Definition WAIT_DURATION_MS : Z := 20.
Definition BUZZER_FREQ : Z := 466.
Definition MAX_ALARM_TIME_SEC : Z := 60.
Definition SLEEP_MODE_ACTIVATION_TIME_MS : Z := 10000.

(** [enum Months {JAN=1, FEB, ..., DEC}] *)
Definition JAN : Z := 1.
Definition FEB : Z := 2.
Definition MAR : Z := 3.
Definition APR : Z := 4.
Definition MAY : Z := 5.
Definition JUN : Z := 6.
Definition JUL : Z := 7.
Definition AUG : Z := 8.
Definition SEP : Z := 9.
Definition OCT : Z := 10.
Definition NOV : Z := 11.
Definition DEC : Z := 12.

Definition weekdays : list string :=
  ["Sunday"; "Monday"; "Tuesday"; "Wednesday"; "Thursday"; "Friday";
   "Saturday"]%string.

Definition months : list string :=
  ["Jan"; "Feb"; "Mar"; "Apr"; "May"; "Jun"; "Jul"; "Aug"; "Sep"; "Oct";
   "Nov"; "Dec"]%string.

Definition weekday_pixel_offset : list Z := [28; 24; 22; 8; 18; 32; 20].

(** A C array read [a[i]]: defined only for [0 <= i < length a]. *)
Definition index {A : Type} (a : list A) (i : Z) : option A :=
  if i <? 0 then None else nth_error a (Z.to_nat i).

(** ** Calendar utility *)

(** [uint8_t number_of_days(uint16_t year, uint8_t month)] *)
Definition number_of_days (year month : Z) : Z :=
  if (month =? JAN) || (month =? MAR) || (month =? MAY) || (month =? JUL)
     || (month =? AUG) || (month =? OCT) || (month =? DEC)
  then 31
  else if (month =? APR) || (month =? JUN) || (month =? SEP) || (month =? NOV)
  then 30
  else if year mod 400 =? 0 then 29
  else if year mod 100 =? 0 then 28
  else if year mod 4 =? 0 then 29
  else 28.

(** The Gregorian rule as the specification words it, for comparison with
    [number_of_days]. *)
Module Gregorian.

Definition divisible (n k : Z) : bool := n mod k =? 0.

Definition leap (year : Z) : bool :=
  divisible year 400 || (divisible year 4 && negb (divisible year 100)).

Definition long_months : list Z := [1; 3; 5; 7; 8; 10; 12].
Definition short_months : list Z := [4; 6; 9; 11].

Definition mem (m : Z) (l : list Z) : bool := existsb (Z.eqb m) l.

Definition days_in_month (year month : Z) : Z :=
  if mem month long_months then 31
  else if mem month short_months then 30
  else if leap year then 29 else 28.

End Gregorian.

(** ** Data model *)

(** [datetime_t], as [hardware/rtc.h] of the SDK declares it: a 16-bit
    signed year and 8-bit signed month, day, day of the week, hour, minute
    and second ([-1] is a legal field value: it stands for "does not
    matter" in [alarmtime]).  The widths only show in the conversions of
    the stores below, which are the identity on every in-range value. *)
Record datetime_t : Type := mk_datetime {
  year : Z;
  month : Z;
  day : Z;
  dotw : Z;
  hour : Z;
  min : Z;
  sec : Z
}.

Definition with_year (v : Z) (d : datetime_t) : datetime_t :=
  mk_datetime v (month d) (day d) (dotw d) (hour d) (min d) (sec d).
Definition with_month (v : Z) (d : datetime_t) : datetime_t :=
  mk_datetime (year d) v (day d) (dotw d) (hour d) (min d) (sec d).
Definition with_day (v : Z) (d : datetime_t) : datetime_t :=
  mk_datetime (year d) (month d) v (dotw d) (hour d) (min d) (sec d).
Definition with_dotw (v : Z) (d : datetime_t) : datetime_t :=
  mk_datetime (year d) (month d) (day d) v (hour d) (min d) (sec d).
Definition with_hour (v : Z) (d : datetime_t) : datetime_t :=
  mk_datetime (year d) (month d) (day d) (dotw d) v (min d) (sec d).
Definition with_min (v : Z) (d : datetime_t) : datetime_t :=
  mk_datetime (year d) (month d) (day d) (dotw d) (hour d) v (sec d).
Definition with_sec (v : Z) (d : datetime_t) : datetime_t :=
  mk_datetime (year d) (month d) (day d) (dotw d) (hour d) (min d) v.

(** The values [current_mode] takes (the [#define]s [MENU] .. [SLEEP_MODE]). *)
Inductive Mode : Type :=
| MENU
| CLOCK
| SET_CLOCK_YEAR
| SET_CLOCK_MONTH
| SET_CLOCK_DAY
| SET_CLOCK_WEEKDAY
| SET_CLOCK_HOUR
| SET_CLOCK_MIN
| SET_CLOCK_SEC
| SET_CLOCK_FINAL
| ALARM_MENU
| DISABLE_ALARM
| SET_ALARM_HOUR
| SET_ALARM_MIN
| SET_ALARM_SEC
| SET_ALARM_FINAL
| SLEEP_MODE.

(** The number each mode is [#define]d as. *)
Definition mode_code (m : Mode) : Z :=
  match m with
  | MENU => 0
  | CLOCK => 1
  | SET_CLOCK_YEAR => 2
  | SET_CLOCK_MONTH => 3
  | SET_CLOCK_DAY => 4
  | SET_CLOCK_WEEKDAY => 5
  | SET_CLOCK_HOUR => 6
  | SET_CLOCK_MIN => 7
  | SET_CLOCK_SEC => 8
  | SET_CLOCK_FINAL => 9
  | ALARM_MENU => 10
  | DISABLE_ALARM => 11
  | SET_ALARM_HOUR => 12
  | SET_ALARM_MIN => 13
  | SET_ALARM_SEC => 14
  | SET_ALARM_FINAL => 15
  | SLEEP_MODE => 16
  end.

(** Calls made to the real-time peripheral, in the order [rtc_calls] records
    them (newest first). *)
Inductive RtcCall : Type :=
| RtcGetDatetime
| RtcSetDatetime (t : datetime_t) (accepted : bool)
| RtcSetAlarm (t : datetime_t)
| RtcDisableAlarm.

(** The globals shared by both cores, and the trace of peripheral calls. *)
Record State : Type := mk_state {
  datetime_set : bool;
  alarm_enabled : bool;
  alarm_fired : bool;
  current_mode : Mode;
  menu_index : Z;
  alarm_count : Z;
  sleep_mode_count : Z;
  alarm_settime : datetime_t;
  set_date : datetime_t;
  alarmtime : datetime_t;
  date : datetime_t;
  rtc_calls : list RtcCall
}.

Definition with_datetime_set (v : bool) (s : State) : State :=
  mk_state v (alarm_enabled s) (alarm_fired s) (current_mode s) (menu_index s)
    (alarm_count s) (sleep_mode_count s) (alarm_settime s) (set_date s)
    (alarmtime s) (date s) (rtc_calls s).
Definition with_alarm_enabled (v : bool) (s : State) : State :=
  mk_state (datetime_set s) v (alarm_fired s) (current_mode s) (menu_index s)
    (alarm_count s) (sleep_mode_count s) (alarm_settime s) (set_date s)
    (alarmtime s) (date s) (rtc_calls s).
Definition with_alarm_fired (v : bool) (s : State) : State :=
  mk_state (datetime_set s) (alarm_enabled s) v (current_mode s) (menu_index s)
    (alarm_count s) (sleep_mode_count s) (alarm_settime s) (set_date s)
    (alarmtime s) (date s) (rtc_calls s).
Definition with_current_mode (v : Mode) (s : State) : State :=
  mk_state (datetime_set s) (alarm_enabled s) (alarm_fired s) v (menu_index s)
    (alarm_count s) (sleep_mode_count s) (alarm_settime s) (set_date s)
    (alarmtime s) (date s) (rtc_calls s).
Definition with_menu_index (v : Z) (s : State) : State :=
  mk_state (datetime_set s) (alarm_enabled s) (alarm_fired s) (current_mode s) v
    (alarm_count s) (sleep_mode_count s) (alarm_settime s) (set_date s)
    (alarmtime s) (date s) (rtc_calls s).
Definition with_alarm_count (v : Z) (s : State) : State :=
  mk_state (datetime_set s) (alarm_enabled s) (alarm_fired s) (current_mode s)
    (menu_index s) v (sleep_mode_count s) (alarm_settime s) (set_date s)
    (alarmtime s) (date s) (rtc_calls s).
Definition with_sleep_mode_count (v : Z) (s : State) : State :=
  mk_state (datetime_set s) (alarm_enabled s) (alarm_fired s) (current_mode s)
    (menu_index s) (alarm_count s) v (alarm_settime s) (set_date s)
    (alarmtime s) (date s) (rtc_calls s).
Definition with_alarm_settime (v : datetime_t) (s : State) : State :=
  mk_state (datetime_set s) (alarm_enabled s) (alarm_fired s) (current_mode s)
    (menu_index s) (alarm_count s) (sleep_mode_count s) v (set_date s)
    (alarmtime s) (date s) (rtc_calls s).
Definition with_set_date (v : datetime_t) (s : State) : State :=
  mk_state (datetime_set s) (alarm_enabled s) (alarm_fired s) (current_mode s)
    (menu_index s) (alarm_count s) (sleep_mode_count s) (alarm_settime s) v
    (alarmtime s) (date s) (rtc_calls s).
Definition with_alarmtime (v : datetime_t) (s : State) : State :=
  mk_state (datetime_set s) (alarm_enabled s) (alarm_fired s) (current_mode s)
    (menu_index s) (alarm_count s) (sleep_mode_count s) (alarm_settime s)
    (set_date s) v (date s) (rtc_calls s).
Definition with_date (v : datetime_t) (s : State) : State :=
  mk_state (datetime_set s) (alarm_enabled s) (alarm_fired s) (current_mode s)
    (menu_index s) (alarm_count s) (sleep_mode_count s) (alarm_settime s)
    (set_date s) (alarmtime s) v (rtc_calls s).
Definition log_call (c : RtcCall) (s : State) : State :=
  mk_state (datetime_set s) (alarm_enabled s) (alarm_fired s) (current_mode s)
    (menu_index s) (alarm_count s) (sleep_mode_count s) (alarm_settime s)
    (set_date s) (alarmtime s) (date s) (c :: rtc_calls s).

(** The initial values of the globals (zero-initialised where the source
    gives no initialiser). *)
Definition zero_datetime : datetime_t := mk_datetime 0 0 0 0 0 0 0.

Definition initial_alarmtime : datetime_t :=
  mk_datetime (-1) (-1) (-1) (-1) 8 0 0.

Definition initial_date : datetime_t := mk_datetime 2022 7 1 5 0 0 0.

Definition initial_state : State :=
  mk_state false false false MENU 0 0 0 zero_datetime zero_datetime
    initial_alarmtime initial_date [].

(** ** Inputs *)

(** The levels [gpio_get] reads from the four buttons in one pass of the
    control loop. *)
Record Buttons : Type := mk_buttons {
  left_button : bool;
  right_button : bool;
  back_button : bool;
  select_button : bool
}.

(** What the environment supplies to one pass of a loop: the button levels,
    and the calendar value [rtc_get_datetime] would deliver ([None] when the
    peripheral is not running, in which case it returns [false] and leaves
    its argument alone). *)
Record Input : Type := mk_input {
  buttons : Buttons;
  rtc_now : option datetime_t
}.

Definition no_buttons : Buttons := mk_buttons false false false false.
Definition press_left : Buttons := mk_buttons true false false false.
Definition press_right : Buttons := mk_buttons false true false false.
Definition press_back : Buttons := mk_buttons false false true false.
Definition press_select : Buttons := mk_buttons false false false true.

(** ** Core 1: the control loop *)

(** The [if (LEFT) .. else if (RIGHT) .. else if (SELECT) .. else if (BACK)]
    chain every menu and wizard mode is written as.  Each branch first waits
    for its button to be released ([while (gpio_get(B));]), which changes
    no global. *)
Definition on_buttons (b : Buttons)
    (on_left on_right on_select on_back : State -> State) (s : State) : State :=
  if left_button b then on_left s
  else if right_button b then on_right s
  else if select_button b then on_select s
  else if back_button b then on_back s
  else s.

(** [x = (x==lo) ? hi : x-1], stored into a variable of the type [conv]
    converts to. *)
Definition dec_wrap (conv : Z -> Z) (lo hi x : Z) : Z :=
  if x =? lo then hi else conv (x - 1).

(** [x = (x==hi) ? lo : x+1] *)
Definition inc_wrap (conv : Z -> Z) (hi lo x : Z) : Z :=
  if x =? hi then lo else conv (x + 1).

(** [number_of_days(set_date.year, set_date.month)]: the arguments are
    converted to the parameter types [uint16_t] and [uint8_t]. *)
Definition day_num_of (d : datetime_t) : Z :=
  number_of_days (Int.uint16 (year d)) (Int.uint8 (month d)).

(** [rtc_get_datetime(&t)], the target [t] being given by its setter. *)
Definition rtc_get_datetime (now : option datetime_t)
    (store : datetime_t -> State -> State) (s : State) : State :=
  let s := log_call RtcGetDatetime s in
  match now with
  | Some t => store t s
  | None => s
  end.

Definition any_button (b : Buttons) : bool :=
  select_button b || back_button b || left_button b || right_button b.

Definition edit_set_date (f : datetime_t -> datetime_t) (s : State) : State :=
  with_set_date (f (set_date s)) s.

Definition edit_alarm_settime (f : datetime_t -> datetime_t) (s : State)
    : State :=
  with_alarm_settime (f (alarm_settime s)) s.

Section Core1.

(** The peripheral's verdict on a calendar value handed to
    [rtc_set_datetime] ([false]: fields out of range, nothing is set). *)
Variable rtc_set_datetime : datetime_t -> bool.

(** One pass of the [while (true)] loop of [core1_main], up to and including
    the closing [busy_wait_ms(WAIT_DURATION_MS)].  In [SLEEP_MODE] a pass
    that finds no button pressed stands for one round of the inner polling
    loop. *)
Definition core1_step (i : Input) (s : State) : State :=
  let b := buttons i in
  match current_mode s with
  | CLOCK =>
      let s :=
        if back_button b
        then with_current_mode MENU (with_sleep_mode_count 0 s)
        else s in
      let s :=
        with_sleep_mode_count (Int.uint16 (sleep_mode_count s + 1)) s in
      if sleep_mode_count s
         =? SLEEP_MODE_ACTIVATION_TIME_MS / WAIT_DURATION_MS
      then with_current_mode SLEEP_MODE (with_sleep_mode_count 0 s)
      else s
  | SLEEP_MODE =>
      if any_button b then with_current_mode CLOCK s else s
  | MENU =>
      on_buttons b
        (fun s => with_menu_index
                    (dec_wrap Int.uint8 0 2 (menu_index s)) s)
        (fun s => with_menu_index
                    (inc_wrap Int.uint8 2 0 (menu_index s)) s)
        (fun s =>
           let s :=
             if menu_index s =? 0 then with_current_mode CLOCK s
             else if menu_index s =? 1 then
               rtc_get_datetime (rtc_now i) with_set_date
                 (with_current_mode SET_CLOCK_YEAR s)
             else if menu_index s =? 2 then with_current_mode ALARM_MENU s
             else s in
           with_menu_index 0 s)
        (fun s => s) s
  | SET_CLOCK_YEAR =>
      on_buttons b
        (edit_set_date (fun d => with_year (dec_wrap Int.int16 0 4095 (year d)) d))
        (edit_set_date (fun d => with_year (inc_wrap Int.int16 4095 0 (year d)) d))
        (with_current_mode SET_CLOCK_MONTH)
        (with_current_mode MENU) s
  | SET_CLOCK_MONTH =>
      on_buttons b
        (edit_set_date (fun d => with_month (dec_wrap Int.int8 1 12 (month d)) d))
        (edit_set_date (fun d => with_month (inc_wrap Int.int8 12 1 (month d)) d))
        (fun s =>
           let day_num := day_num_of (set_date s) in
           let s :=
             edit_set_date
               (fun d => with_day (if day d >? day_num then day_num else day d) d)
               s in
           with_current_mode SET_CLOCK_DAY s)
        (with_current_mode SET_CLOCK_YEAR) s
  | SET_CLOCK_DAY =>
      let day_num := day_num_of (set_date s) in
      on_buttons b
        (edit_set_date (fun d => with_day (dec_wrap Int.int8 1 day_num (day d)) d))
        (edit_set_date (fun d => with_day (inc_wrap Int.int8 day_num 1 (day d)) d))
        (with_current_mode SET_CLOCK_WEEKDAY)
        (with_current_mode SET_CLOCK_MONTH) s
  | SET_CLOCK_WEEKDAY =>
      on_buttons b
        (edit_set_date (fun d => with_dotw (dec_wrap Int.int8 0 6 (dotw d)) d))
        (edit_set_date (fun d => with_dotw (inc_wrap Int.int8 6 0 (dotw d)) d))
        (with_current_mode SET_CLOCK_HOUR)
        (with_current_mode SET_CLOCK_DAY) s
  | SET_CLOCK_HOUR =>
      on_buttons b
        (edit_set_date (fun d => with_hour (dec_wrap Int.int8 0 23 (hour d)) d))
        (edit_set_date (fun d => with_hour (inc_wrap Int.int8 23 0 (hour d)) d))
        (with_current_mode SET_CLOCK_MIN)
        (with_current_mode SET_CLOCK_WEEKDAY) s
  | SET_CLOCK_MIN =>
      on_buttons b
        (edit_set_date (fun d => with_min (dec_wrap Int.int8 0 59 (min d)) d))
        (edit_set_date (fun d => with_min (inc_wrap Int.int8 59 0 (min d)) d))
        (with_current_mode SET_CLOCK_SEC)
        (with_current_mode SET_CLOCK_HOUR) s
  | SET_CLOCK_SEC =>
      on_buttons b
        (edit_set_date (fun d => with_sec (dec_wrap Int.int8 0 59 (sec d)) d))
        (edit_set_date (fun d => with_sec (inc_wrap Int.int8 59 0 (sec d)) d))
        (fun s =>
           let ok := rtc_set_datetime (set_date s) in
           let s := log_call (RtcSetDatetime (set_date s) ok) s in
           with_current_mode SET_CLOCK_FINAL (with_datetime_set ok s))
        (with_current_mode SET_CLOCK_MIN) s
  | ALARM_MENU =>
      on_buttons b
        (fun s => with_menu_index (if menu_index s =? 0 then 1 else 0) s)
        (fun s => with_menu_index (if menu_index s =? 1 then 0 else 1) s)
        (fun s =>
           let s :=
             if menu_index s =? 0 then
               let s :=
                 if alarm_enabled s then log_call RtcDisableAlarm s
                 else log_call (RtcSetAlarm (alarmtime s)) s in
               with_current_mode DISABLE_ALARM
                 (with_alarm_enabled (negb (alarm_enabled s)) s)
             else if menu_index s =? 1 then
               with_alarm_settime (alarmtime s)
                 (with_current_mode SET_ALARM_HOUR s)
             else s in
           with_menu_index 0 s)
        (fun s => with_menu_index 0 (with_current_mode MENU s)) s
  | SET_ALARM_HOUR =>
      on_buttons b
        (edit_alarm_settime
           (fun d => with_hour (dec_wrap Int.int8 0 23 (hour d)) d))
        (edit_alarm_settime
           (fun d => with_hour (inc_wrap Int.int8 23 0 (hour d)) d))
        (with_current_mode SET_ALARM_MIN)
        (with_current_mode MENU) s
  | SET_ALARM_MIN =>
      on_buttons b
        (edit_alarm_settime
           (fun d => with_min (dec_wrap Int.int8 0 59 (min d)) d))
        (edit_alarm_settime
           (fun d => with_min (inc_wrap Int.int8 59 0 (min d)) d))
        (with_current_mode SET_ALARM_SEC)
        (with_current_mode SET_ALARM_HOUR) s
  | SET_ALARM_SEC =>
      on_buttons b
        (edit_alarm_settime
           (fun d => with_sec (dec_wrap Int.int8 0 59 (sec d)) d))
        (edit_alarm_settime
           (fun d => with_sec (inc_wrap Int.int8 59 0 (sec d)) d))
        (fun s =>
           let s := with_alarmtime (alarm_settime s) s in
           let s := log_call (RtcSetAlarm (alarmtime s)) s in
           with_current_mode SET_ALARM_FINAL (with_alarm_enabled true s))
        (with_current_mode SET_ALARM_MIN) s
  | SET_ALARM_FINAL | SET_CLOCK_FINAL | DISABLE_ALARM =>
      if select_button b then with_current_mode CLOCK s else s
  end.

(** The [while (true)] loop of [core1_main] over the inputs of its first
    passes, one per pass. *)
Fixpoint core1_main (inputs : list Input) (s : State) : State :=
  match inputs with
  | [] => s
  | i :: rest => core1_main rest (core1_step i s)
  end.

End Core1.

(** ** Core 0: the display loop *)

(** An argument of a [sprintf] call, after the conversion the call site
    applies to it. *)
Inductive Arg : Type :=
| ArgInt (z : Z)
| ArgStr (s : string).

(** What is handed to [oled.print]: a string literal, or the buffer
    [oled_str] as the preceding [sprintf(oled_str, format, args...)] left
    it. *)
Inductive Text : Type :=
| Lit (s : string)
| Sprintf (format : string) (args : list Arg).

(** [oled.print(x, y, text)] *)
Inductive DrawCmd : Type :=
| Print (x y : Z) (text : Text).

Definition Frame : Type := list DrawCmd.

Definition mode_is (s : State) (m : Mode) : bool :=
  mode_code (current_mode s) =? mode_code m.

Definition mode_between (lo hi : Mode) (s : State) : bool :=
  (mode_code lo <=? mode_code (current_mode s))
  && (mode_code (current_mode s) <=? mode_code hi).

Definition fmt_time : string := "%02hi:%02hi:%02hi".
Definition fmt_date : string := "%02hi %s %04hi".
Definition fmt_02 : string := "%02hi".
Definition fmt_04 : string := "%04hi".
Definition fmt_s : string := "%s".

(** The [switch] of the clock wizard: what [sprintf] leaves in [oled_str]
    and the caption printed with it.  [None] when an array is read out of
    its bounds. *)
Definition set_clock_screen (s : State) : option Frame :=
  let d := set_date s in
  match current_mode s with
  | SET_CLOCK_YEAR =>
      Some [Print 8 8 (Lit "YEAR");
            Print 8 28 (Sprintf fmt_04 [ArgInt (year d)])]
  | SET_CLOCK_MONTH =>
      match index months (month d - 1) with
      | Some name =>
          Some [Print 8 8 (Lit "MONTH");
                Print 8 28 (Sprintf fmt_s [ArgStr name])]
      | None => None
      end
  | SET_CLOCK_DAY =>
      Some [Print 8 8 (Lit "DAY");
            Print 8 28 (Sprintf fmt_02 [ArgInt (Int.uint16 (day d))])]
  | SET_CLOCK_WEEKDAY =>
      match index weekdays (dotw d) with
      | Some name =>
          Some [Print 8 8 (Lit "WEEKDAY");
                Print 8 28 (Sprintf fmt_s [ArgStr name])]
      | None => None
      end
  | SET_CLOCK_HOUR =>
      Some [Print 8 8 (Lit "HOUR");
            Print 8 28 (Sprintf fmt_02 [ArgInt (Int.uint16 (hour d))])]
  | SET_CLOCK_MIN =>
      Some [Print 8 8 (Lit "MIN");
            Print 8 28 (Sprintf fmt_02 [ArgInt (Int.uint16 (min d))])]
  | SET_CLOCK_SEC =>
      Some [Print 8 8 (Lit "SEC");
            Print 8 28 (Sprintf fmt_02 [ArgInt (Int.uint16 (sec d))])]
  | _ => Some []
  end.

(** The [switch] of the alarm wizard. *)
Definition set_alarm_screen (s : State) : Frame :=
  let d := alarm_settime s in
  match current_mode s with
  | SET_ALARM_HOUR =>
      [Print 0 8 (Lit "ALARM HOUR");
       Print 0 28 (Sprintf fmt_02 [ArgInt (Int.uint16 (hour d))])]
  | SET_ALARM_MIN =>
      [Print 0 8 (Lit "ALARM MIN");
       Print 0 28 (Sprintf fmt_02 [ArgInt (Int.uint16 (min d))])]
  | SET_ALARM_SEC =>
      [Print 0 8 (Lit "ALARM SEC");
       Print 0 28 (Sprintf fmt_02 [ArgInt (Int.uint16 (sec d))])]
  | _ => []
  end.

(** The [CLOCK] branch once [rtc_get_datetime(&date)] has returned [true]. *)
Definition clock_screen (d : datetime_t) : option Frame :=
  match index months (month d - 1), index weekdays (dotw d),
        index weekday_pixel_offset (dotw d) with
  | Some mname, Some wname, Some off =>
      Some [Print 2 0
              (Sprintf fmt_date
                 [ArgInt (Int.uint16 (day d)); ArgStr mname; ArgInt (year d)]);
            Print 16 20
              (Sprintf fmt_time
                 [ArgInt (Int.uint16 (hour d)); ArgInt (Int.uint16 (min d));
                  ArgInt (Int.uint16 (sec d))]);
            Print off 40 (Sprintf fmt_s [ArgStr wname])]
  | _, _, _ => None
  end.

(** One pass of the [while (true)] loop of [main]: the globals it leaves and
    the frame shown ([[]] is a blank display).  The pass reads the shared
    globals once; [None] when it reads an array out of its bounds. *)
Definition main_step (i : Input) (s : State) : option (State * Frame) :=
  if alarm_fired s then
    if alarm_count s <? 8 then
      Some (with_alarm_count (Int.uint8 (alarm_count s + 1)) s,
            [Print 32 8 (Lit "ALARM");
             Print 20 32
               (Sprintf fmt_time
                  [ArgInt (Int.uint16 (hour (alarmtime s)));
                   ArgInt (Int.uint16 (min (alarmtime s)));
                   ArgInt (Int.uint16 (sec (alarmtime s)))])])
    else Some (with_alarm_count 0 s, [])
  else if mode_is s MENU then
    Some (s, [Print 8 0 (Lit "CLOCK"); Print 8 20 (Lit "SET CLOCK");
              Print 8 40 (Lit "ALARM"); Print 0 (20 * menu_index s) (Lit "-")])
  else if mode_is s ALARM_MENU then
    Some (s, [Print 8 0 (Lit (if alarm_enabled s then "DISABLE" else "ENABLE"));
              Print 8 20 (Lit "SET"); Print 0 (20 * menu_index s) (Lit "-")])
  else if mode_is s DISABLE_ALARM then
    Some (s, [Print 12 8 (Lit "ALARM IS");
              if alarm_enabled s then Print 14 32 (Lit "ENABLED")
              else Print 12 32 (Lit "DISABLED")])
  else if mode_is s CLOCK then
    let s := rtc_get_datetime (rtc_now i) with_date s in
    match rtc_now i with
    | Some _ =>
        match clock_screen (date s) with
        | Some f => Some (s, f)
        | None => None
        end
    | None => Some (s, [Print 24 8 (Lit "RTC NOT"); Print 24 32 (Lit "WORKING")])
    end
  else if mode_is s SLEEP_MODE then Some (s, [])
  else if mode_between SET_CLOCK_YEAR SET_CLOCK_SEC s then
    match set_clock_screen s with
    | Some f => Some (s, f)
    | None => None
    end
  else if mode_is s SET_CLOCK_FINAL then
    Some (s, if datetime_set s
             then [Print 30 8 (Lit "CLOCK"); Print 30 32 (Lit "IS SET")]
             else [Print 8 8 (Lit "INVALID"); Print 24 32 (Lit "DATE")])
  else if mode_between SET_ALARM_HOUR SET_ALARM_SEC s then
    Some (s, set_alarm_screen s)
  else if mode_is s SET_ALARM_FINAL then
    Some (s, [Print 30 8 (Lit "ALARM"); Print 30 32 (Lit "IS SET")])
  else Some (s, []).

(** ** The alarm interrupt handler *)

(** [buzz(freq)], by the microseconds it busy-waits: two half periods of
    [(uint64_t)500000/freq], nothing for frequency zero. *)
Definition buzz (freq : Z) : Z :=
  if freq =? 0 then 0 else 500000 / freq + 500000 / freq.

(** What the handler gets to know of the world while it waits.  The tests
    of its two loop conditions are numbered 0, 1, 2, ... in the order they
    are made; [select k] is what [gpio_get(SELECT_BUTTON)] returns at test
    [k] and [clock k] what [time_us_64()] returns there (a 64-bit count of
    microseconds, which wraps).  How far apart the readings are is up to
    the environment: a pass of a loop costs its two busy-waits and
    whatever else the processor spends on it.

    [while (gpio_get(SELECT_BUTTON) == level && time_us_64() < end)
    buzz(BUZZER_FREQ);] whose first test is test [k]: the number of the
    test at which the loop is left.  [None] when [fuel] passes do not reach
    the exit. *)
Fixpoint buzz_while (fuel : nat) (level : bool) (select : nat -> bool)
    (clock : nat -> Z) (end_ : Z) (k : nat) : option nat :=
  if Bool.eqb (select k) level && (clock k <? end_) then
    match fuel with
    | O => None
    | S fuel => buzz_while fuel level select clock end_ (S k)
    end
  else Some k.

(** [end], from the value [start] that [time_us_64()] returned on entry. *)
Definition alarm_end (start : Z) : Z :=
  let duration_us := MAX_ALARM_TIME_SEC * 1000000 in
  Int.uint64 (start + duration_us).

(** The two waiting loops of [alarm_callback], one after the other: the
    number of the last test made before [alarm_fired = false] is
    executed. *)
Definition alarm_cleared_at (fuel : nat) (select : nat -> bool)
    (clock : nat -> Z) (start : Z) : option nat :=
  let end_ := alarm_end start in
  match buzz_while fuel false select clock end_ O with
  | Some n1 => buzz_while fuel true select clock end_ (S n1)
  | None => None
  end.

(** The globals while the handler waits ([alarm_fired = true]). *)
Definition alarm_firing (s : State) : State := with_alarm_fired true s.

(** [alarm_callback] up to the final wait for release, which changes no
    global: the number of the last test before the firing flag is cleared,
    and the globals then. *)
Definition alarm_callback (fuel : nat) (select : nat -> bool)
    (clock : nat -> Z) (start : Z) (s : State) : option (nat * State) :=
  let s := alarm_firing s in
  match alarm_cleared_at fuel select clock start with
  | Some n => Some (n, with_alarm_count 0 (with_alarm_fired false s))
  | None => None
  end.

(** The firing flag as the display loop sees it when the handler makes its
    test [k]: set up to the last test, clear afterwards. *)
Definition firing_at (fuel : nat) (select : nat -> bool) (clock : nat -> Z)
    (start : Z) (k : nat) : bool :=
  match alarm_cleared_at fuel select clock start with
  | Some n => (k <=? n)%nat
  | None => true
  end.

(** The buzzes sounded by a handler whose last test is test [n]: one after
    every test but the two at which the loops are left. *)
Definition buzzes (n : nat) : nat := (n - 1)%nat.

(** ** Vocabulary of the properties *)

(** A pass in which the select branch of a four-button chain is taken. *)
Definition selects (i : Input) : Prop :=
  left_button (buttons i) = false /\ right_button (buttons i) = false
  /\ select_button (buttons i) = true.

(** A pass in which the back branch is taken. *)
Definition goes_back (i : Input) : Prop :=
  left_button (buttons i) = false /\ right_button (buttons i) = false
  /\ select_button (buttons i) = false /\ back_button (buttons i) = true.

(** A pass in which the right branch is taken. *)
Definition goes_right (i : Input) : Prop :=
  left_button (buttons i) = false /\ right_button (buttons i) = true.

(** A pass in which the left branch is taken. *)
Definition goes_left (i : Input) : Prop := left_button (buttons i) = true.

(** A pass that edits the current field, one way or the other. *)
Definition edits (i : Input) : Prop := goes_left i \/ goes_right i.

(** The [DateTime] of the data model: every field in its range and the day
    within the month. *)
Definition well_formed (d : datetime_t) : Prop :=
  0 <= year d <= 4095 /\ 1 <= month d <= 12
  /\ 1 <= day d <= number_of_days (year d) (month d)
  /\ 0 <= dotw d <= 6 /\ 0 <= hour d <= 23
  /\ 0 <= min d <= 59 /\ 0 <= sec d <= 59.

(** The peripheral delivers a [DateTime] whenever it delivers anything. *)
Definition rtc_delivers_datetime (i : Input) : Prop :=
  match rtc_now i with
  | Some d => well_formed d
  | None => True
  end.

(** The ranges the display loop relies on when it indexes [months] and
    [weekdays] and prints two-digit fields. *)
Definition draft_in_range (d : datetime_t) : Prop :=
  1 <= month d <= 12 /\ 0 <= dotw d <= 6 /\ 0 <= hour d <= 23
  /\ 0 <= min d <= 59 /\ 0 <= sec d <= 59.

(** The clock wizard modes past the month field, and its confirmation: the
    modes in which the day has been checked against the month. *)
Definition day_checked (m : Mode) : bool :=
  match m with
  | SET_CLOCK_DAY | SET_CLOCK_WEEKDAY | SET_CLOCK_HOUR | SET_CLOCK_MIN
  | SET_CLOCK_SEC | SET_CLOCK_FINAL => true
  | _ => false
  end.

(** The field a wizard mode edits: its lowest and highest value and the
    value it holds. *)
Definition field_span (s : State) : option (Z * Z * Z) :=
  match current_mode s with
  | SET_CLOCK_YEAR => Some (0, 4095, year (set_date s))
  | SET_CLOCK_MONTH => Some (1, 12, month (set_date s))
  | SET_CLOCK_DAY => Some (1, day_num_of (set_date s), day (set_date s))
  | SET_CLOCK_WEEKDAY => Some (0, 6, dotw (set_date s))
  | SET_CLOCK_HOUR => Some (0, 23, hour (set_date s))
  | SET_CLOCK_MIN => Some (0, 59, min (set_date s))
  | SET_CLOCK_SEC => Some (0, 59, sec (set_date s))
  | SET_ALARM_HOUR => Some (0, 23, hour (alarm_settime s))
  | SET_ALARM_MIN => Some (0, 59, min (alarm_settime s))
  | SET_ALARM_SEC => Some (0, 59, sec (alarm_settime s))
  | _ => None
  end.

(** The mode a wizard field is left to by Back when it is not the first
    field of its wizard. *)
Definition previous_field (m : Mode) : option Mode :=
  match m with
  | SET_CLOCK_MONTH => Some SET_CLOCK_YEAR
  | SET_CLOCK_DAY => Some SET_CLOCK_MONTH
  | SET_CLOCK_WEEKDAY => Some SET_CLOCK_DAY
  | SET_CLOCK_HOUR => Some SET_CLOCK_WEEKDAY
  | SET_CLOCK_MIN => Some SET_CLOCK_HOUR
  | SET_CLOCK_SEC => Some SET_CLOCK_MIN
  | SET_ALARM_MIN => Some SET_ALARM_HOUR
  | SET_ALARM_SEC => Some SET_ALARM_MIN
  | _ => None
  end.

(** The pass that commits the alarm draft: Select in [SET_ALARM_SEC]. *)
Definition commits_alarm (i : Input) (s : State) : bool :=
  mode_is s SET_ALARM_SEC && negb (left_button (buttons i))
  && negb (right_button (buttons i)) && select_button (buttons i).

(** Modelled from the spec: [rtc_set_datetime] of the real-time peripheral,
    which is not part of the sources ("set_datetime(DateTime) -> bool, false
    if fields out of range").  Used to instantiate the peripheral in the
    worked examples. *)
Definition fields_in_range (t : datetime_t) : bool :=
  (0 <=? year t) && (year t <=? 4095) && (1 <=? month t) && (month t <=? 12)
  && (1 <=? day t) && (day t <=? 31) && (0 <=? dotw t) && (dotw t <=? 6)
  && (0 <=? hour t) && (hour t <=? 23) && (0 <=? min t) && (min t <=? 59)
  && (0 <=? sec t) && (sec t <=? 59).

(** Storing [v] into the field the current wizard mode edits. *)
Definition put_field (v : Z) (s : State) : State :=
  match current_mode s with
  | SET_CLOCK_YEAR => edit_set_date (with_year v) s
  | SET_CLOCK_MONTH => edit_set_date (with_month v) s
  | SET_CLOCK_DAY => edit_set_date (with_day v) s
  | SET_CLOCK_WEEKDAY => edit_set_date (with_dotw v) s
  | SET_CLOCK_HOUR => edit_set_date (with_hour v) s
  | SET_CLOCK_MIN => edit_set_date (with_min v) s
  | SET_CLOCK_SEC => edit_set_date (with_sec v) s
  | SET_ALARM_HOUR => edit_alarm_settime (with_hour v) s
  | SET_ALARM_MIN => edit_alarm_settime (with_min v) s
  | SET_ALARM_SEC => edit_alarm_settime (with_sec v) s
  | _ => s
  end.

(** The conversion a store into that field applies. *)
Definition field_conv (m : Mode) : Z -> Z :=
  match m with
  | SET_CLOCK_YEAR => Int.int16
  | _ => Int.int8
  end.

(** ** Data of the worked examples *)

(** A calendar value for the peripheral to deliver: Tuesday 31 January
    2023, noon. *)
Definition rtc_date_example : datetime_t := mk_datetime 2023 1 31 2 12 0 0.

(** A pass with the given button levels and a running peripheral. *)
Definition press (b : Buttons) : Input := mk_input b (Some rtc_date_example).

(** The same with a peripheral that is not running. *)
Definition press_no_rtc (b : Buttons) : Input := mk_input b None.

(** Power-up, Right, Select: the clock wizard is entered, with the draft
    seeded from the peripheral. *)
Definition wizard_entry : State :=
  Eval vm_compute in
  core1_main fields_in_range [press press_right; press press_select]
    initial_state.

(** From there Select, Right, Select: the month moved to February and the
    day field entered. *)
Definition day_field_entered : State :=
  Eval vm_compute in
  core1_main fields_in_range
    [press press_select; press press_right; press press_select] wizard_entry.

(** Power-up, Select: [CLOCK] mode with the idle counter at zero. *)
Definition clock_shown : State :=
  Eval vm_compute in
  core1_step fields_in_range (press press_select) initial_state.

(** Power-up, Right, Right, Select: the alarm menu, cursor on 0. *)
Definition alarm_menu_entered : State :=
  Eval vm_compute in
  core1_main fields_in_range
    [press press_right; press press_right; press press_select] initial_state.

(** Then Right: the cursor on 1. *)
Definition alarm_menu_on_set : State :=
  Eval vm_compute in
  core1_step fields_in_range (press press_right) alarm_menu_entered.

(** Then Select: the first field of the alarm wizard. *)
Definition alarm_hour_entered : State :=
  Eval vm_compute in
  core1_step fields_in_range (press press_select) alarm_menu_on_set.

(** Power-up with the peripheral not running, Right, Select, and Select in
    every field up to the seconds: the draft was never seeded and still
    holds month 0 and day 0. *)
Definition unseeded_draft_at_sec : State :=
  Eval vm_compute in
  core1_main fields_in_range
    (press_no_rtc press_right :: repeat (press_no_rtc press_select) 7)
    initial_state.

(** The alarm set to 15:30:00 through the alarm wizard and armed by its
    commit, then the clock face entered and left alone for 42 passes. *)
Definition armed_inputs : list Input :=
  [press press_right; press press_right; press press_select;
   press press_right; press press_select]
  ++ repeat (press press_right) 7 ++ [press press_select]
  ++ repeat (press press_right) 30
  ++ [press press_select; press press_select; press press_select]
  ++ repeat (press no_buttons) 42.

Definition armed_and_idle : State :=
  Eval vm_compute in core1_main fields_in_range armed_inputs initial_state.





(** The select button of a user who never touches it. *)
Definition never_pressed (k : nat) : bool := false.

(** The select button found pressed at the tests 3 to 9. *)
Definition pressed_at_tests_3_to_9 (k : nat) : bool :=
  (3 <=? k)%nat && (k <=? 9)%nat.

(** The clock of a handler entered at [start] whose tests come [pass_us]
    microseconds apart. *)
Definition paced_clock (pass_us start : Z) (k : nat) : Z :=
  start + Z.of_nat k * pass_us.

(** Fuel for the worked examples. *)
Definition fuel_30000 : nat := Z.to_nat 30000.

(** The clock reading of an alarm that fires one hour after power-up. *)
Definition fired_at_one_hour : Z := 3600000000.

(** ** Vocabulary of the further properties *)

(** The states the two cores and the alarm interrupt can bring about from
    power-up, passes and interrupts taken in any order: a pass of the
    control loop, a pass of the display loop, the alarm handler setting the
    firing flag, and the alarm handler clearing it.  The display loop and
    the handler do not take turns with the rest pass by pass, so each of
    their writes may also land on its own, in a state the others have
    moved on to: the display's write of [alarm_count], computed from what
    it read earlier ([reach_main_late]), its read of the peripheral into
    [date] ([reach_date_late]), and the handler's [alarm_fired = false]
    and [alarm_count = 0], which are two statements
    ([reach_flag_cleared], [reach_count_cleared]).  (The control loop
    touches neither [alarm_fired] nor [alarm_count] nor [date], and the
    handler nothing else, so a pass of the control loop is taken as one
    step.  The real interleavings are among these.) *)
Inductive Reachable (rtc_set_datetime : datetime_t -> bool) : State -> Prop :=
| reach_power_up : Reachable rtc_set_datetime initial_state
| reach_core1 i s :
    Reachable rtc_set_datetime s ->
    Reachable rtc_set_datetime (core1_step rtc_set_datetime i s)
| reach_main j s s' f :
    Reachable rtc_set_datetime s -> main_step j s = Some (s', f) ->
    Reachable rtc_set_datetime s'
| reach_main_late j s0 s0' f s :
    Reachable rtc_set_datetime s0 -> main_step j s0 = Some (s0', f) ->
    Reachable rtc_set_datetime s ->
    Reachable rtc_set_datetime (with_alarm_count (alarm_count s0') s)
| reach_date_late j s :
    Reachable rtc_set_datetime s ->
    Reachable rtc_set_datetime (rtc_get_datetime (rtc_now j) with_date s)
| reach_fire s :
    Reachable rtc_set_datetime s -> Reachable rtc_set_datetime (alarm_firing s)
| reach_flag_cleared s :
    Reachable rtc_set_datetime s ->
    Reachable rtc_set_datetime (with_alarm_fired false s)
| reach_count_cleared s :
    Reachable rtc_set_datetime s ->
    Reachable rtc_set_datetime (with_alarm_count 0 s)
| reach_handled fuel select clock start s n s' :
    Reachable rtc_set_datetime s ->
    alarm_callback fuel select clock start s = Some (n, s') ->
    Reachable rtc_set_datetime s'.

(** Modelled from the spec: the alarm registration of the real-time
    peripheral, which is not part of the sources ("arm_alarm(AlarmTime,
    on_fire_callback)" installs a value, "disarm_alarm()" removes it), read
    off the calls made so far, newest first. *)
Fixpoint rtc_alarm_of (calls : list RtcCall) : option datetime_t :=
  match calls with
  | [] => None
  | RtcSetAlarm t :: _ => Some t
  | RtcDisableAlarm :: _ => None
  | _ :: rest => rtc_alarm_of rest
  end.

(** The calendar values the control loop handed to [rtc_set_datetime],
    newest first. *)
Fixpoint datetimes_set (calls : list RtcCall) : list datetime_t :=
  match calls with
  | [] => []
  | RtcSetDatetime t _ :: rest => t :: datetimes_set rest
  | _ :: rest => datetimes_set rest
  end.

(** An alarm time: the date fields at "does not matter", the time of day in
    range. *)
Definition alarm_time_ok (t : datetime_t) : Prop :=
  year t = -1 /\ month t = -1 /\ day t = -1 /\ dotw t = -1
  /\ 0 <= hour t <= 23 /\ 0 <= min t <= 59 /\ 0 <= sec t <= 59.

(** The modes of the alarm wizard that edit the alarm draft. *)
Definition edits_alarm_draft (m : Mode) : bool :=
  match m with
  | SET_ALARM_HOUR | SET_ALARM_MIN | SET_ALARM_SEC => true
  | _ => false
  end.

(** The pass that commits the clock draft: Select in [SET_CLOCK_SEC]. *)
Definition commits_clock (i : Input) (s : State) : bool :=
  mode_is s SET_CLOCK_SEC && negb (left_button (buttons i))
  && negb (right_button (buttons i)) && select_button (buttons i).

(** The display loop run over its first passes: the globals left and the
    frames shown, in order; [None] as soon as a pass is undefined. *)
Fixpoint main_frames (inputs : list Input) (s : State)
    : option (State * list Frame) :=
  match inputs with
  | [] => Some (s, [])
  | j :: rest =>
      match main_step j s with
      | Some (s', f) =>
          match main_frames rest s' with
          | Some (s'', fs) => Some (s'', f :: fs)
          | None => None
          end
      | None => None
      end
  end.

(** The frame shown while the alarm fires. *)
Definition alarm_frame (t : datetime_t) : Frame :=
  [Print 32 8 (Lit "ALARM");
   Print 20 32
     (Sprintf fmt_time
        [ArgInt (Int.uint16 (hour t)); ArgInt (Int.uint16 (min t));
         ArgInt (Int.uint16 (sec t))])].

(** The days of a year, month by month. *)
Definition days_of_year (year : Z) : Z :=
  fold_right Z.add 0
    (map (number_of_days year) [1; 2; 3; 4; 5; 6; 7; 8; 9; 10; 11; 12]).

(** The menu cursor is within the options of the menu shown, and at 0 in
    every other mode. *)
Definition menu_cursor_ok (s : State) : Prop :=
  match current_mode s with
  | MENU => 0 <= menu_index s <= 2
  | ALARM_MENU => 0 <= menu_index s <= 1
  | _ => menu_index s = 0
  end.

(** The idle counter is below the threshold, and at most 1 outside
    [CLOCK]. *)
Definition idle_counter_ok (s : State) : Prop :=
  0 <= sleep_mode_count s < 500
  /\ (current_mode s <> CLOCK -> sleep_mode_count s <= 1).

(** The peripheral holds the stored alarm time when the alarm is enabled,
    and no alarm when it is not. *)
Definition alarm_armed_ok (s : State) : Prop :=
  rtc_alarm_of (rtc_calls s)
  = if alarm_enabled s then Some (alarmtime s) else None.

(** The stored alarm time is an alarm time, and so is the draft while the
    alarm wizard edits it. *)
Definition alarm_times_ok (s : State) : Prop :=
  alarm_time_ok (alarmtime s)
  /\ (edits_alarm_draft (current_mode s) = true ->
      alarm_time_ok (alarm_settime s)).

(** The modes a pass of the control loop can move to from a mode. *)
Definition next_modes (m : Mode) : list Mode :=
  match m with
  | MENU => [CLOCK; SET_CLOCK_YEAR; ALARM_MENU]
  | CLOCK => [MENU; SLEEP_MODE]
  | SLEEP_MODE => [CLOCK]
  | SET_CLOCK_YEAR => [SET_CLOCK_MONTH; MENU]
  | SET_CLOCK_MONTH => [SET_CLOCK_DAY; SET_CLOCK_YEAR]
  | SET_CLOCK_DAY => [SET_CLOCK_WEEKDAY; SET_CLOCK_MONTH]
  | SET_CLOCK_WEEKDAY => [SET_CLOCK_HOUR; SET_CLOCK_DAY]
  | SET_CLOCK_HOUR => [SET_CLOCK_MIN; SET_CLOCK_WEEKDAY]
  | SET_CLOCK_MIN => [SET_CLOCK_SEC; SET_CLOCK_HOUR]
  | SET_CLOCK_SEC => [SET_CLOCK_FINAL; SET_CLOCK_MIN]
  | ALARM_MENU => [DISABLE_ALARM; SET_ALARM_HOUR; MENU]
  | SET_ALARM_HOUR => [SET_ALARM_MIN; MENU]
  | SET_ALARM_MIN => [SET_ALARM_SEC; SET_ALARM_HOUR]
  | SET_ALARM_SEC => [SET_ALARM_FINAL; SET_ALARM_MIN]
  | SET_CLOCK_FINAL | SET_ALARM_FINAL | DISABLE_ALARM => [CLOCK]
  end.

(** The modes of the clock wizard that edit the clock draft. *)
Definition edits_clock_draft (m : Mode) : bool :=
  match m with
  | SET_CLOCK_YEAR | SET_CLOCK_MONTH | SET_CLOCK_DAY | SET_CLOCK_WEEKDAY
  | SET_CLOCK_HOUR | SET_CLOCK_MIN | SET_CLOCK_SEC => true
  | _ => false
  end.

(** A pass during which the peripheral is running and delivers a
    [DateTime]. *)
Definition rtc_runs (i : Input) : Prop :=
  exists d, rtc_now i = Some d /\ well_formed d.

(** The states reachable while the peripheral keeps running: as
    [Reachable], every pass of either loop and every read of the
    peripheral finding it running. *)
Inductive Reachable_running (rtc_set_datetime : datetime_t -> bool)
    : State -> Prop :=
| running_power_up : Reachable_running rtc_set_datetime initial_state
| running_core1 i s :
    Reachable_running rtc_set_datetime s -> rtc_runs i ->
    Reachable_running rtc_set_datetime (core1_step rtc_set_datetime i s)
| running_main j s s' f :
    Reachable_running rtc_set_datetime s -> rtc_runs j ->
    main_step j s = Some (s', f) ->
    Reachable_running rtc_set_datetime s'
| running_main_late j s0 s0' f s :
    Reachable_running rtc_set_datetime s0 -> rtc_runs j ->
    main_step j s0 = Some (s0', f) ->
    Reachable_running rtc_set_datetime s ->
    Reachable_running rtc_set_datetime (with_alarm_count (alarm_count s0') s)
| running_date_late j s :
    Reachable_running rtc_set_datetime s -> rtc_runs j ->
    Reachable_running rtc_set_datetime
      (rtc_get_datetime (rtc_now j) with_date s)
| running_fire s :
    Reachable_running rtc_set_datetime s ->
    Reachable_running rtc_set_datetime (alarm_firing s)
| running_flag_cleared s :
    Reachable_running rtc_set_datetime s ->
    Reachable_running rtc_set_datetime (with_alarm_fired false s)
| running_count_cleared s :
    Reachable_running rtc_set_datetime s ->
    Reachable_running rtc_set_datetime (with_alarm_count 0 s)
| running_handled fuel select clock start s n s' :
    Reachable_running rtc_set_datetime s ->
    alarm_callback fuel select clock start s = Some (n, s') ->
    Reachable_running rtc_set_datetime s'.

(** The clock draft as the wizard keeps it: year, month, weekday and time
    of day in range, the day at least 1, and within the month once the
    month field has been left. *)
Definition clock_draft_ok (s : State) : Prop :=
  0 <= year (set_date s) <= 4095
  /\ draft_in_range (set_date s)
  /\ 1 <= day (set_date s)
  /\ (day_checked (current_mode s) = true ->
      day (set_date s) <= day_num_of (set_date s)).

(** * Properties *)

(** ** Machine integers *)

Lemma uint8_id z : 0 <= z < 256 -> Int.uint8 z = z.
Proof. intros H. unfold Int.uint8. apply Z.mod_small. exact H. Qed.

Lemma uint16_id z : 0 <= z < 65536 -> Int.uint16 z = z.
Proof. intros H. unfold Int.uint16. apply Z.mod_small. exact H. Qed.

Lemma uint64_id z : 0 <= z < 18446744073709551616 -> Int.uint64 z = z.
Proof. intros H. unfold Int.uint64. apply Z.mod_small. exact H. Qed.

Lemma int8_id z : -128 <= z < 128 -> Int.int8 z = z.
Proof. intros H. unfold Int.int8. rewrite Z.mod_small; lia. Qed.

Lemma int16_id z : -32768 <= z < 32768 -> Int.int16 z = z.
Proof. intros H. unfold Int.int16. rewrite Z.mod_small; lia. Qed.

(** ** Calendar utility *)

Lemma number_of_days_range year month :
  28 <= number_of_days year month <= 31.
Proof.
  unfold number_of_days.
  repeat match goal with |- context [if ?c then _ else _] => destruct c end;
    lia.
Qed.

Lemma day_num_of_range d : 28 <= day_num_of d <= 31.
Proof. apply number_of_days_range. Qed.

Lemma february year :
  number_of_days year 2 = if Gregorian.leap year then 29 else 28.
Proof.
  unfold number_of_days, Gregorian.leap, Gregorian.divisible.
  match goal with |- context [if ?c then 31 else _] => change c with false end.
  match goal with |- context [if ?c then 30 else _] => change c with false end.
  cbv iota.
  destruct (year mod 400 =? 0) eqn:H400; [reflexivity|].
  destruct (year mod 100 =? 0) eqn:H100.
  - rewrite andb_false_r. reflexivity.
  - rewrite andb_true_r, orb_false_l. reflexivity.
Qed.

(** C1: for every year in 0..4095 and month in 1..12, [number_of_days]
    returns the Gregorian day count: 31 for the seven long months, 30 for
    April, June, September and November, and for February 29 if the year
    is divisible by 400 or by 4 and not by 100, else 28; it returns 28 for
    (1900, 2) and 29 for (2000, 2). *)
Theorem number_of_days_gregorian (year month : Z) :
  0 <= year <= 4095 -> 1 <= month <= 12 ->
  number_of_days year month = Gregorian.days_in_month year month
  /\ number_of_days 1900 2 = 28
  /\ number_of_days 2000 2 = 29.
Proof.
  intros _ Hm. split; [|split; reflexivity].
  assert (Hcases : month = 1 \/ month = 2 \/ month = 3 \/ month = 4
                   \/ month = 5 \/ month = 6 \/ month = 7 \/ month = 8
                   \/ month = 9 \/ month = 10 \/ month = 11 \/ month = 12)
    by lia.
  repeat (destruct Hcases as [-> | Hcases]); try subst month;
    try reflexivity; apply february.
Qed.

Lemma number_of_days_gregorian_witness :
  (0 <= 2024 <= 4095) /\ (1 <= 2 <= 12)
  /\ number_of_days 2024 2 = Gregorian.days_in_month 2024 2
  /\ number_of_days 1900 2 = 28
  /\ number_of_days 2000 2 = 29.
Proof.
  split; [lia|]. split; [lia|].
  apply (number_of_days_gregorian 2024 2); lia.
Defined.

(** ** The control loop, branch by branch *)

(** Rewrites the button levels a hypothesis fixes and picks the branch. *)
Ltac pick_branch :=
  repeat match goal with
  | H : selects _ |- _ => destruct H as (? & ? & ?)
  | H : goes_back _ |- _ => destruct H as (? & ? & ? & ?)
  | H : goes_right _ |- _ => destruct H as (? & ?)
  | H : goes_left _ |- _ => unfold goes_left in H
  end;
  unfold core1_step, on_buttons;
  repeat match goal with
  | H : current_mode _ = _ |- _ => rewrite H
  | H : left_button _ = _ |- _ => rewrite H
  | H : right_button _ = _ |- _ => rewrite H
  | H : select_button _ = _ |- _ => rewrite H
  | H : back_button _ = _ |- _ => rewrite H
  end;
  cbv iota.

Section Branches.

Variable rtc_set_datetime : datetime_t -> bool.

Lemma threshold_500 :
  SLEEP_MODE_ACTIVATION_TIME_MS / WAIT_DURATION_MS = 500.
Proof. reflexivity. Qed.

Lemma clock_pass_idle i s :
  current_mode s = CLOCK -> back_button (buttons i) = false ->
  0 <= sleep_mode_count s < 65535 ->
  core1_step rtc_set_datetime i s =
    if sleep_mode_count s + 1 =? 500
    then with_current_mode SLEEP_MODE (with_sleep_mode_count 0 s)
    else with_sleep_mode_count (sleep_mode_count s + 1) s.
Proof.
  intros Hm Hb Hc. pick_branch. rewrite threshold_500.
  destruct s; cbn in *. rewrite uint16_id by lia.
  destruct (_ =? 500); reflexivity.
Qed.

Lemma clock_pass_back i s :
  current_mode s = CLOCK -> back_button (buttons i) = true ->
  core1_step rtc_set_datetime i s = with_sleep_mode_count 1 (with_current_mode MENU s).
Proof. intros Hm Hb. pick_branch. destruct s; reflexivity. Qed.

Lemma sleep_pass_wake i s :
  current_mode s = SLEEP_MODE -> any_button (buttons i) = true ->
  core1_step rtc_set_datetime i s = with_current_mode CLOCK s.
Proof. intros Hm Hb. unfold core1_step. rewrite Hm, Hb. reflexivity. Qed.

Lemma sleep_pass_wait i s :
  current_mode s = SLEEP_MODE -> any_button (buttons i) = false ->
  core1_step rtc_set_datetime i s = s.
Proof. intros Hm Hb. unfold core1_step. rewrite Hm, Hb. reflexivity. Qed.

(** Idle passes in [CLOCK] below the threshold only count. *)
Lemma clock_idle_run inputs : forall s,
  current_mode s = CLOCK ->
  Forall (fun i => back_button (buttons i) = false) inputs ->
  0 <= sleep_mode_count s ->
  sleep_mode_count s + Z.of_nat (List.length inputs) < 500 ->
  core1_main rtc_set_datetime inputs s
  = with_sleep_mode_count (sleep_mode_count s + Z.of_nat (List.length inputs)) s.
Proof.
  induction inputs as [|i rest IH]; intros s Hm Hidle H0 Hlt.
  - cbn. rewrite Z.add_0_r. destruct s; reflexivity.
  - inversion Hidle as [|? ? Hi Hrest]; subst.
    cbn [core1_main]. rewrite clock_pass_idle by (cbn in Hlt; lia || assumption).
    cbn [List.length] in Hlt.
    destruct (sleep_mode_count s + 1 =? 500) eqn:E; [lia|].
    set (s' := with_sleep_mode_count (sleep_mode_count s + 1) s).
    assert (Hm' : current_mode s' = CLOCK) by (destruct s; assumption).
    assert (Hc' : sleep_mode_count s' = sleep_mode_count s + 1)
      by (destruct s; reflexivity).
    rewrite IH by (try assumption; lia).
    rewrite Hc'. subst s'. destruct s; unfold with_sleep_mode_count; cbn.
    f_equal. lia.
Qed.

(** C5: in [CLOCK] mode the idle counter goes up by one per pass; the pass
    that brings it to the threshold 10000 / 20 = 500 resets it to zero and
    enters [SLEEP_MODE]; so a run of idle passes from a count [c] stays in
    [CLOCK] until the pass number [500 - c], which ends in [SLEEP_MODE] with
    count zero; and in [SLEEP_MODE] a pass that sees any button pressed
    leaves for [CLOCK], never for [MENU]. *)
Theorem clock_idle_sleep_wake (i w : Input) (s z : State)
    (inputs : list Input) :
  current_mode s = CLOCK ->
  back_button (buttons i) = false ->
  0 <= sleep_mode_count s < 500 ->
  Forall (fun i => back_button (buttons i) = false) inputs ->
  sleep_mode_count s + Z.of_nat (List.length inputs) = 499 ->
  current_mode z = SLEEP_MODE ->
  any_button (buttons w) = true ->
  SLEEP_MODE_ACTIVATION_TIME_MS / WAIT_DURATION_MS = 500
  /\ (sleep_mode_count s + 1 < 500 ->
      core1_step rtc_set_datetime i s = with_sleep_mode_count (sleep_mode_count s + 1) s)
  /\ (sleep_mode_count s + 1 = 500 ->
      core1_step rtc_set_datetime i s = with_current_mode SLEEP_MODE (with_sleep_mode_count 0 s))
  /\ core1_main rtc_set_datetime inputs s = with_sleep_mode_count 499 s
  /\ core1_main rtc_set_datetime (inputs ++ [i]) s
     = with_current_mode SLEEP_MODE (with_sleep_mode_count 0 s)
  /\ core1_step rtc_set_datetime w z = with_current_mode CLOCK z
  /\ current_mode (core1_step rtc_set_datetime w z) <> MENU.
Proof.
  intros Hm Hi Hc Hidle Hlen Hz Hw.
  assert (Hrun : core1_main rtc_set_datetime inputs s
                 = with_sleep_mode_count 499 s).
  { rewrite clock_idle_run by (assumption || lia). rewrite Hlen. reflexivity. }
  split; [reflexivity|]. split; [|split; [|split; [|split; [|split]]]].
  - intros Hlt. rewrite clock_pass_idle by (assumption || lia).
    destruct (_ =? 500) eqn:E; [lia|reflexivity].
  - intros Heq. rewrite clock_pass_idle by (assumption || lia).
    rewrite Heq. reflexivity.
  - exact Hrun.
  - assert (Happ : forall l1 l2 t, core1_main rtc_set_datetime (l1 ++ l2) t
                   = core1_main rtc_set_datetime l2
                       (core1_main rtc_set_datetime l1 t)).
    { induction l1; intros; cbn; [reflexivity|apply IHl1]. }
    rewrite Happ, Hrun. cbn [core1_main].
    rewrite clock_pass_idle; destruct s; cbn in *; try assumption; try lia.
    reflexivity.
  - apply sleep_pass_wake; assumption.
  - rewrite sleep_pass_wake by assumption. destruct z; cbn. discriminate.
Qed.

(** Back, branch by branch. *)
Lemma back_pass i s :
  goes_back i ->
  core1_step rtc_set_datetime i s =
    match current_mode s with
    | SET_CLOCK_YEAR | SET_ALARM_HOUR => with_current_mode MENU s
    | ALARM_MENU => with_menu_index 0 (with_current_mode MENU s)
    | CLOCK => with_sleep_mode_count 1 (with_current_mode MENU s)
    | SLEEP_MODE => with_current_mode CLOCK s
    | MENU | SET_CLOCK_FINAL | SET_ALARM_FINAL | DISABLE_ALARM => s
    | m =>
        match previous_field m with
        | Some p => with_current_mode p s
        | None => s
        end
    end.
Proof.
  intros Hb. destruct (current_mode s) eqn:Hm; pick_branch;
    try reflexivity.
  unfold any_button.
  repeat match goal with H : _ (buttons i) = _ |- _ => rewrite H end.
  reflexivity.
Qed.

(** C7, as the code has it: Back in the first field of either wizard leaves
    the wizard for [MENU] (the top menu, which for the alarm wizard is not
    the mode it was entered from), and in every other field Back returns to
    the previous field; nothing but the mode changes. *)
Theorem back_leaves_field (i : Input) (s : State) :
  goes_back i ->
  (current_mode s = SET_CLOCK_YEAR ->
   core1_step rtc_set_datetime i s = with_current_mode MENU s)
  /\ (current_mode s = SET_ALARM_HOUR ->
      core1_step rtc_set_datetime i s = with_current_mode MENU s)
  /\ (forall p, previous_field (current_mode s) = Some p ->
      core1_step rtc_set_datetime i s = with_current_mode p s).
Proof.
  intros Hb. rewrite (back_pass i s Hb). repeat split.
  - intros ->. reflexivity.
  - intros ->. reflexivity.
  - intros p Hp. destruct (current_mode s); cbn in Hp; try discriminate;
      inversion Hp; subst p; reflexivity.
Qed.

(** The final Select of the clock wizard. *)
Lemma clock_commit_pass i s :
  current_mode s = SET_CLOCK_SEC -> selects i ->
  core1_step rtc_set_datetime i s =
    with_current_mode SET_CLOCK_FINAL
      (with_datetime_set (rtc_set_datetime (set_date s))
         (log_call (RtcSetDatetime (set_date s)
                      (rtc_set_datetime (set_date s))) s)).
Proof. intros Hm Hs. pick_branch. reflexivity. Qed.

(** The confirmation screens answer to Select alone. *)
Lemma final_pass i s :
  current_mode s = SET_CLOCK_FINAL \/ current_mode s = SET_ALARM_FINAL
  \/ current_mode s = DISABLE_ALARM ->
  core1_step rtc_set_datetime i s =
    if select_button (buttons i) then with_current_mode CLOCK s else s.
Proof.
  intros [Hm | [Hm | Hm]]; unfold core1_step; rewrite Hm; reflexivity.
Qed.

(** C8: when the final Select of the clock wizard hands the draft to
    [rtc_set_datetime] and the peripheral rejects it, the failure is
    recorded in [datetime_set], the mode becomes [SET_CLOCK_FINAL], whose
    screen reads INVALID DATE; the control loop makes no further call to
    the peripheral from there, every pass is defined, and Select leaves
    the screen for [CLOCK]. *)
Theorem rejected_commit_is_surfaced (i j k : Input) (s : State) :
  current_mode s = SET_CLOCK_SEC ->
  selects i ->
  rtc_set_datetime (set_date s) = false ->
  let s' := core1_step rtc_set_datetime i s in
  datetime_set s' = false
  /\ current_mode s' = SET_CLOCK_FINAL
  /\ rtc_calls s' = RtcSetDatetime (set_date s) false :: rtc_calls s
  /\ (alarm_fired s = false ->
      main_step j s'
      = Some (s', [Print 8 8 (Lit "INVALID"); Print 24 32 (Lit "DATE")]))
  /\ rtc_calls (core1_step rtc_set_datetime k s') = rtc_calls s'
  /\ datetime_set (core1_step rtc_set_datetime k s') = false
  /\ (select_button (buttons k) = true ->
      core1_step rtc_set_datetime k s' = with_current_mode CLOCK s')
  /\ (select_button (buttons k) = false ->
      core1_step rtc_set_datetime k s' = s').
Proof.
  intros Hm Hs Hrej s'. subst s'.
  rewrite (clock_commit_pass i s Hm Hs), Hrej.
  set (s' := with_current_mode _ _).
  assert (Hm' : current_mode s' = SET_CLOCK_FINAL) by reflexivity.
  rewrite (final_pass k s' (or_introl Hm')).
  repeat split; try reflexivity.
  - intros Hf. unfold main_step. subst s'. destruct s; cbn in *.
    rewrite Hf. reflexivity.
  - destruct (select_button (buttons k)); reflexivity.
  - destruct (select_button (buttons k)); reflexivity.
  - intros ->. reflexivity.
  - intros ->. reflexivity.
Qed.

(** C9: the armed [alarmtime] is written only by the final commit of the
    alarm wizard (Select in [SET_ALARM_SEC]): every other pass of the
    control loop, the menu toggle, the edits of the draft and Back among
    them, leaves it as it was, and so do the display loop and the alarm
    handler. *)
Theorem alarmtime_written_only_by_commit (i : Input) (s : State) :
  commits_alarm i s = false ->
  alarmtime (core1_step rtc_set_datetime i s) = alarmtime s
  /\ (forall j s' f, main_step j s = Some (s', f) ->
      alarmtime s' = alarmtime s)
  /\ (forall fuel select clock start n s',
      alarm_callback fuel select clock start s = Some (n, s') ->
      alarmtime s' = alarmtime s).
Proof.
  intros Hc. split; [|split].
  - unfold commits_alarm, mode_is in Hc. unfold core1_step, on_buttons.
    destruct s as [ds ae af m mi ac sc ast sd at_ dt calls].
    destruct i as [[l r b sl] now]. cbn in *.
    destruct m; cbn in *; destruct l, r, sl, b; cbn in *;
      try discriminate;
      repeat match goal with
             | |- context [if ?c then _ else _] => destruct c; cbn
             end;
      try reflexivity; destruct now; reflexivity.
  - intros j s' f H. unfold main_step in H.
    unfold rtc_get_datetime in H.
    repeat match type of H with
           | context [if ?c then _ else _] => destruct c
           | context [match ?c with _ => _ end] => destruct c
           end;
      inversion H; subst; reflexivity.
  - intros fuel select clock start n s' H. unfold alarm_callback in H.
    destruct (alarm_cleared_at fuel select clock start); inversion H; subst.
    reflexivity.
Qed.

End Branches.

(** ** Wizard fields are cyclic *)

Lemma inc_wrap_climb conv hi lo :
  (forall z, lo <= z <= hi -> conv z = z) ->
  forall k v, lo <= v -> v + Z.of_nat k <= hi ->
  Nat.iter k (inc_wrap conv hi lo) v = v + Z.of_nat k.
Proof.
  intros Hconv. induction k as [|k IH]; intros v Hlo Hhi.
  - cbn. lia.
  - rewrite Nat.iter_succ, IH by lia. unfold inc_wrap.
    destruct (_ =? hi) eqn:E; [lia|]. rewrite Hconv; lia.
Qed.

Lemma inc_wrap_cycle conv hi lo v :
  (forall z, lo <= z <= hi -> conv z = z) ->
  lo <= v <= hi ->
  Nat.iter (Z.to_nat (hi - lo + 1)) (inc_wrap conv hi lo) v = v.
Proof.
  intros Hconv Hv.
  replace (Z.to_nat (hi - lo + 1))
    with (Z.to_nat (v - lo) + (1 + Z.to_nat (hi - v)))%nat by lia.
  rewrite Nat.iter_add. cbn [Nat.add]. rewrite Nat.iter_succ.
  rewrite (inc_wrap_climb conv hi lo Hconv (Z.to_nat (hi - v)) v) by lia.
  replace (v + Z.of_nat (Z.to_nat (hi - v))) with hi by lia.
  replace (inc_wrap conv hi lo hi) with lo
    by (unfold inc_wrap; rewrite Z.eqb_refl; reflexivity).
  rewrite (inc_wrap_climb conv hi lo Hconv) by lia. lia.
Qed.

Lemma field_conv_id s lo hi v z :
  field_span s = Some (lo, hi, v) -> lo <= z <= hi ->
  field_conv (current_mode s) z = z.
Proof.
  unfold field_span. intros Hf Hz.
  pose proof (day_num_of_range (set_date s)) as Hd.
  destruct (current_mode s); inversion Hf; subst; cbn;
    (apply int8_id || apply int16_id); lia.
Qed.

Lemma field_span_put s lo hi v w :
  field_span s = Some (lo, hi, v) ->
  field_span (put_field w s) = Some (lo, hi, w).
Proof.
  unfold field_span, put_field. intros Hf.
  destruct (current_mode s) eqn:Hm; inversion Hf; subst;
    destruct s; cbn in *; rewrite Hm; reflexivity.
Qed.

Lemma put_field_put a b s : put_field a (put_field b s) = put_field a s.
Proof.
  unfold put_field. destruct s as [? ? ? m ? ? ? ? ? ? ? ?]. cbn.
  destruct m; reflexivity.
Qed.

Lemma put_field_same s lo hi v :
  field_span s = Some (lo, hi, v) -> put_field v s = s.
Proof.
  unfold field_span, put_field.
  destruct s as [? ? ? m ? ? ? ast sd ? ? ?]. cbn. intros Hf.
  destruct m; inversion Hf; subst; destruct ast, sd; reflexivity.
Qed.

Section Cycle.

Variable rtc_set_datetime : datetime_t -> bool.

(** Right, in every wizard field. *)
Lemma right_pass i s lo hi v :
  goes_right i -> field_span s = Some (lo, hi, v) ->
  core1_step rtc_set_datetime i s
  = put_field (inc_wrap (field_conv (current_mode s)) hi lo v) s.
Proof.
  intros Hr Hf. unfold field_span in Hf. unfold put_field.
  destruct (current_mode s) eqn:Hm; inversion Hf; subst; pick_branch;
    reflexivity.
Qed.

(** Left, in every wizard field. *)
Lemma left_pass i s lo hi v :
  goes_left i -> field_span s = Some (lo, hi, v) ->
  core1_step rtc_set_datetime i s
  = put_field (dec_wrap (field_conv (current_mode s)) lo hi v) s.
Proof.
  intros Hr Hf. unfold field_span in Hf. unfold put_field.
  destruct (current_mode s) eqn:Hm; inversion Hf; subst; pick_branch;
    reflexivity.
Qed.

Lemma right_passes i n : forall s lo hi v,
  goes_right i -> field_span s = Some (lo, hi, v) ->
  Nat.iter n (core1_step rtc_set_datetime i) s
  = put_field
      (Nat.iter n (inc_wrap (field_conv (current_mode s)) hi lo) v) s.
Proof.
  induction n as [|n IH]; intros s lo hi v Hr Hf.
  - cbn. symmetry. eapply put_field_same; eassumption.
  - rewrite Nat.iter_succ, (IH s lo hi v Hr Hf).
    set (w := Nat.iter n _ v).
    rewrite (right_pass i _ lo hi w Hr (field_span_put s lo hi v w Hf)).
    rewrite put_field_put. f_equal. f_equal.
    unfold put_field. destruct s as [? ? ? m ? ? ? ? ? ? ? ?]. cbn.
    destruct m; reflexivity.
Qed.

(** C6: in every wizard field, whose values range over [lo .. hi] (0..4095
    for the year, 1..12 for the month, 1..[number_of_days] for the day,
    0..6 for the weekday, 0..23 for an hour, 0..59 for minutes and
    seconds), pressing Right as many times as the range has values brings
    an in-range field, and with it all the globals, back to where it
    was. *)
Theorem right_presses_cycle (i : Input) (s : State) (lo hi v : Z) :
  goes_right i ->
  field_span s = Some (lo, hi, v) ->
  lo <= v <= hi ->
  Nat.iter (Z.to_nat (hi - lo + 1)) (core1_step rtc_set_datetime i) s = s.
Proof.
  intros Hr Hf Hv.
  rewrite (right_passes i _ s lo hi v Hr Hf).
  rewrite inc_wrap_cycle.
  - eapply put_field_same; eassumption.
  - intros z Hz. eapply field_conv_id; eassumption.
  - exact Hv.
Qed.

End Cycle.

(** ** The draft stays in range *)

Lemma dec_wrap_range conv lo hi x :
  (forall z, lo <= z <= hi -> conv z = z) -> lo <= x <= hi ->
  lo <= dec_wrap conv lo hi x <= hi.
Proof.
  intros Hconv Hx. unfold dec_wrap. destruct (x =? lo) eqn:E; [lia|].
  rewrite Hconv; lia.
Qed.

Lemma inc_wrap_range conv hi lo x :
  (forall z, lo <= z <= hi -> conv z = z) -> lo <= x <= hi ->
  lo <= inc_wrap conv hi lo x <= hi.
Proof.
  intros Hconv Hx. unfold inc_wrap. destruct (x =? hi) eqn:E; [lia|].
  rewrite Hconv; lia.
Qed.

Lemma int8_small lo hi :
  -128 <= lo -> hi < 128 -> forall z, lo <= z <= hi -> Int.int8 z = z.
Proof. intros Hlo Hhi z Hz. apply int8_id. lia. Qed.

(** Splits a pass into the seventeen modes and the five ways through the
    button chain, keeping the arithmetic of the edits folded. *)
Ltac by_mode_and_buttons s i :=
  let l := fresh "l" in
  let r := fresh "r" in
  let b := fresh "b" in
  let sl := fresh "sl" in
  let now := fresh "now" in
  let m := fresh "m" in
  destruct s as [? ? ? m ? ? ? ? ? ? ? ?];
  destruct i as [[l r b sl] now];
  unfold core1_step, on_buttons;
  cbn [current_mode buttons left_button right_button select_button
       back_button rtc_now];
  destruct m;
  (destruct l; [|destruct r; [|destruct sl; [|destruct b]]]);
  cbn [any_button orb andb negb].

Section Ranges.

Variable rtc_set_datetime : datetime_t -> bool.

Lemma draft_in_range_pass i s :
  rtc_delivers_datetime i ->
  draft_in_range (set_date s) ->
  draft_in_range (set_date (core1_step rtc_set_datetime i s)).
Proof.
  intros Hrtc Hd. unfold rtc_delivers_datetime in Hrtc.
  by_mode_and_buttons s i;
    cbn [rtc_now set_date] in *;
    repeat match goal with
           | |- context [if ?c then _ else _] => destruct c
           end;
    try exact Hd;
    unfold rtc_get_datetime, edit_set_date, log_call, with_set_date,
      with_current_mode, with_menu_index, with_sleep_mode_count,
      with_datetime_set;
    cbn [set_date current_mode];
    try exact Hd;
    try (destruct now as [d|]; cbn [set_date];
         [destruct Hrtc as (? & ? & ? & ? & ? & ? & ?);
          unfold draft_in_range; tauto | exact Hd]);
    destruct Hd as (Hmo & Hw & Hh & Hmi & Hs);
    unfold draft_in_range, with_year, with_month, with_day, with_dotw,
      with_hour, with_min, with_sec;
    cbn [year month day dotw hour min sec];
    repeat split; try tauto;
    (apply dec_wrap_range || apply inc_wrap_range);
    try assumption; apply int8_small; lia.
Qed.

Lemma draft_in_range_run inputs : forall s,
  Forall rtc_delivers_datetime inputs ->
  draft_in_range (set_date s) ->
  draft_in_range (set_date (core1_main rtc_set_datetime inputs s)).
Proof.
  induction inputs as [|i rest IH]; intros s Hall Hd; [exact Hd|].
  inversion Hall; subst. cbn [core1_main]. apply IH; [assumption|].
  apply draft_in_range_pass; assumption.
Qed.

Lemma months_in_bounds m :
  1 <= m <= 12 -> exists name, index months (m - 1) = Some name.
Proof.
  intros Hm.
  assert (Hcases : m = 1 \/ m = 2 \/ m = 3 \/ m = 4 \/ m = 5 \/ m = 6
                   \/ m = 7 \/ m = 8 \/ m = 9 \/ m = 10 \/ m = 11
                   \/ m = 12) by lia.
  repeat (destruct Hcases as [-> | Hcases]); try subst m;
    eexists; reflexivity.
Qed.

Lemma weekdays_in_bounds w :
  0 <= w <= 6 -> exists name, index weekdays w = Some name.
Proof.
  intros Hw.
  assert (Hcases : w = 0 \/ w = 1 \/ w = 2 \/ w = 3 \/ w = 4 \/ w = 5
                   \/ w = 6) by lia.
  repeat (destruct Hcases as [-> | Hcases]); try subst w;
    eexists; reflexivity.
Qed.

Lemma set_clock_screen_defined s :
  draft_in_range (set_date s) -> exists f, set_clock_screen s = Some f.
Proof.
  intros (Hmo & Hw & _). unfold set_clock_screen.
  destruct (months_in_bounds _ Hmo) as [mn Hmn].
  destruct (weekdays_in_bounds _ Hw) as [wn Hwn].
  rewrite Hmn, Hwn. destruct (current_mode s); eexists; reflexivity.
Qed.

Lemma main_step_wizard_defined j s :
  draft_in_range (set_date s) ->
  mode_between SET_CLOCK_YEAR SET_CLOCK_SEC s = true ->
  exists r, main_step j s = Some r.
Proof.
  intros Hd Hb. destruct (set_clock_screen_defined s Hd) as [f Hf].
  unfold main_step, mode_is. unfold mode_between in Hb.
  destruct (alarm_fired s); [destruct (_ <? 8); eexists; reflexivity|].
  destruct (current_mode s) eqn:Hm; cbn in Hb |- *; try discriminate Hb;
    unfold mode_between; rewrite Hm, Hf; cbn; eexists; reflexivity.
Qed.

(** C10: every pass of the control loop keeps the draft's month in 1..12,
    weekday in 0..6, hour in 0..23 and minute and second in 0..59, given a
    draft in those ranges (and a peripheral that delivers a [DateTime] when
    the draft is seeded from it); so after any number of passes the display
    loop's reads [months[set_date.month-1]] and [weekdays[set_date.dotw]]
    are within the arrays, and its pass over a clock wizard mode is
    defined. *)
Theorem draft_ranges_preserved (inputs : list Input) (s : State) :
  draft_in_range (set_date s) ->
  Forall rtc_delivers_datetime inputs ->
  let s' := core1_main rtc_set_datetime inputs s in
  (forall i, rtc_delivers_datetime i ->
     draft_in_range (set_date (core1_step rtc_set_datetime i s)))
  /\ draft_in_range (set_date s')
  /\ (exists name, index months (month (set_date s') - 1) = Some name)
  /\ (exists name, index weekdays (dotw (set_date s')) = Some name)
  /\ (exists f, set_clock_screen s' = Some f)
  /\ (forall j, mode_between SET_CLOCK_YEAR SET_CLOCK_SEC s' = true ->
      exists r, main_step j s' = Some r).
Proof.
  intros Hd Hall s'.
  assert (Hd' : draft_in_range (set_date s'))
    by (apply draft_in_range_run; assumption).
  split; [|split; [|split; [|split; [|split]]]].
  - intros i Hi. apply draft_in_range_pass; assumption.
  - exact Hd'.
  - apply months_in_bounds, Hd'.
  - apply weekdays_in_bounds, Hd'.
  - apply set_clock_screen_defined, Hd'.
  - intros j Hb. apply main_step_wizard_defined; assumption.
Qed.

(** ** The day stays within the month *)

(** The four ways a pass of the control loop treats the draft date: it
    leaves it alone (and then enters no day-checked mode from an unchecked
    one), seeds it from the peripheral on entering the wizard, clamps the
    day on leaving the month field, or edits the current field. *)
Lemma draft_pass_cases i s :
  let s' := core1_step rtc_set_datetime i s in
  (set_date s' = set_date s
   /\ (day_checked (current_mode s') = true ->
       day_checked (current_mode s) = true))
  \/ (exists d, rtc_now i = Some d /\ set_date s' = d
               /\ current_mode s' = SET_CLOCK_YEAR)
  \/ (current_mode s = SET_CLOCK_MONTH /\ current_mode s' = SET_CLOCK_DAY
      /\ set_date s'
         = with_day (if day (set_date s) >? day_num_of (set_date s)
                     then day_num_of (set_date s) else day (set_date s))
             (set_date s))
  \/ (exists lo hi v, field_span s = Some (lo, hi, v)
       /\ (s' = put_field (inc_wrap (field_conv (current_mode s)) hi lo v) s
           \/ s' = put_field (dec_wrap (field_conv (current_mode s)) lo hi v) s)).
Proof.
  by_mode_and_buttons s i;
    try (right; right; left; split; [reflexivity|split; reflexivity]);
    repeat match goal with
           | |- context [if ?c then _ else _] => destruct c
           end;
    first
      [ left; split; [reflexivity|];
        cbn; intros H; first [exact H | discriminate H | reflexivity]
      | right; right; right; do 3 eexists;
        split; [reflexivity|]; first [left; reflexivity | right; reflexivity]
      | destruct now as [d|];
        [ right; left; exists d; repeat split
        | left; split; [reflexivity|]; cbn; intros H; discriminate H ] ].
Qed.

Lemma day_bound_pass i s :
  rtc_delivers_datetime i ->
  1 <= day (set_date s) ->
  (day_checked (current_mode s) = true ->
   day (set_date s) <= day_num_of (set_date s)) ->
  let s' := core1_step rtc_set_datetime i s in
  1 <= day (set_date s')
  /\ (day_checked (current_mode s') = true ->
      day (set_date s') <= day_num_of (set_date s')).
Proof.
  intros Hrtc H1 Hck. cbv zeta.
  pose proof (day_num_of_range (set_date s)) as Hdn.
  pose proof (draft_pass_cases i s) as Hcases. cbv zeta in Hcases.
  revert Hcases. generalize (core1_step rtc_set_datetime i s). intros s'.
  intros [(Hsd & Hmode) | [(d & Hnow & Hsd & Hmode) | [(Hm & Hm' & Hsd) | Hedit]]].
  - rewrite Hsd. split; [exact H1|]. intros H. apply Hck, Hmode, H.
  - rewrite Hsd, Hmode. unfold rtc_delivers_datetime in Hrtc.
    rewrite Hnow in Hrtc. destruct Hrtc as (_ & _ & Hday & _).
    split; [lia|discriminate].
  - rewrite Hsd, Hm'. unfold day_num_of in *. cbn [day year month with_day].
    destruct (_ >? _) eqn:E; split; intros; lia.
  - destruct Hedit as (lo & hi & v & Hf & Hs').
    assert (Hput : forall w,
              (current_mode s = SET_CLOCK_DAY ->
               1 <= w <= day_num_of (set_date s)) ->
              s' = put_field w s ->
              1 <= day (set_date s')
              /\ (day_checked (current_mode s') = true ->
                  day (set_date s') <= day_num_of (set_date s'))).
    { intros w Hw ->. unfold field_span in Hf. unfold put_field.
      destruct s as [? ? ? m ? ? ? ? sd ? ? ?]. cbn in Hf, H1, Hck, Hw |- *.
      destruct m; inversion Hf; subst; cbn;
        try change (day_num_of (with_day w sd)) with (day_num_of sd);
        try specialize (Hw eq_refl);
        (split; [first [exact H1 | lia]
                | first [discriminate | exact Hck | intros _; lia]]). }
    assert (Hday : current_mode s = SET_CLOCK_DAY ->
              lo = 1 /\ hi = day_num_of (set_date s)
              /\ 1 <= v <= day_num_of (set_date s)
              /\ forall z, 1 <= z <= day_num_of (set_date s) ->
                   field_conv (current_mode s) z = z).
    { intros Hm. unfold field_span in Hf. rewrite Hm in Hf, Hck |- *.
      inversion Hf; subst. specialize (Hck eq_refl).
      repeat split; try lia. intros z Hz. apply int8_id. lia. }
    destruct Hs' as [Hs' | Hs']; refine (Hput _ _ Hs'); intros Hm;
      destruct (Hday Hm) as (-> & -> & Hv & Hconv).
    + apply inc_wrap_range; assumption.
    + apply dec_wrap_range; assumption.
Qed.

Lemma day_bound_run inputs : forall s,
  Forall rtc_delivers_datetime inputs ->
  1 <= day (set_date s) ->
  (day_checked (current_mode s) = true ->
   day (set_date s) <= day_num_of (set_date s)) ->
  let s' := core1_main rtc_set_datetime inputs s in
  1 <= day (set_date s')
  /\ (day_checked (current_mode s') = true ->
      day (set_date s') <= day_num_of (set_date s')).
Proof.
  induction inputs as [|i rest IH]; intros s Hall H1 Hck; [split; assumption|].
  inversion Hall; subst. cbn [core1_main].
  destruct (day_bound_pass i s) as [H1' Hck']; try assumption.
  apply IH; assumption.
Qed.

Lemma year_range_pass i s :
  rtc_delivers_datetime i ->
  0 <= year (set_date s) <= 4095 ->
  0 <= year (set_date (core1_step rtc_set_datetime i s)) <= 4095.
Proof.
  intros Hrtc Hy.
  pose proof (draft_pass_cases i s) as Hcases. cbv zeta in Hcases.
  revert Hcases. generalize (core1_step rtc_set_datetime i s). intros s'.
  intros [(Hsd & _) | [(d & Hnow & Hsd & _) | [(_ & _ & Hsd) | Hedit]]].
  - rewrite Hsd. exact Hy.
  - rewrite Hsd. unfold rtc_delivers_datetime in Hrtc. rewrite Hnow in Hrtc.
    apply Hrtc.
  - rewrite Hsd. exact Hy.
  - destruct Hedit as (lo & hi & v & Hf & Hs').
    assert (Hput : forall w,
              (current_mode s = SET_CLOCK_YEAR -> 0 <= w <= 4095) ->
              s' = put_field w s -> 0 <= year (set_date s') <= 4095).
    { intros w Hw ->. unfold field_span in Hf. unfold put_field.
      destruct s as [? ? ? m ? ? ? ? sd ? ? ?]. cbn in Hf, Hy, Hw |- *.
      destruct m; inversion Hf; subst; cbn;
        first [exact Hy | exact (Hw eq_refl)]. }
    assert (Hyear : current_mode s = SET_CLOCK_YEAR ->
              lo = 0 /\ hi = 4095 /\ v = year (set_date s)
              /\ forall z, 0 <= z <= 4095 ->
                   field_conv (current_mode s) z = z).
    { intros Hm. unfold field_span in Hf. rewrite Hm in Hf |- *.
      inversion Hf; subst. repeat split. intros z Hz. apply int16_id. lia. }
    destruct Hs' as [Hs' | Hs']; refine (Hput _ _ Hs'); intros Hm;
      destruct (Hyear Hm) as (-> & -> & -> & Hconv).
    + apply inc_wrap_range; assumption.
    + apply dec_wrap_range; assumption.
Qed.

Lemma year_range_run inputs : forall s,
  Forall rtc_delivers_datetime inputs ->
  0 <= year (set_date s) <= 4095 ->
  0 <= year (set_date (core1_main rtc_set_datetime inputs s)) <= 4095.
Proof.
  induction inputs as [|i rest IH]; intros s Hall Hy; [exact Hy|].
  inversion Hall; subst. cbn [core1_main]. apply IH; [assumption|].
  apply year_range_pass; assumption.
Qed.

Lemma day_num_of_plain d :
  0 <= year d <= 4095 -> 1 <= month d <= 12 ->
  day_num_of d = number_of_days (year d) (month d).
Proof.
  intros Hy Hm. unfold day_num_of.
  rewrite uint16_id, uint8_id by lia. reflexivity.
Qed.

(** Select in the month field. *)
Lemma month_select_pass i s :
  current_mode s = SET_CLOCK_MONTH -> selects i ->
  core1_step rtc_set_datetime i s
  = with_current_mode SET_CLOCK_DAY
      (edit_set_date
         (with_day (Z.min (day (set_date s)) (day_num_of (set_date s)))) s).
Proof.
  intros Hm Hs. pick_branch. unfold edit_set_date. do 3 f_equal.
  destruct (_ >? _) eqn:E; lia.
Qed.

(** C2: in the clock wizard entered with a well-formed draft, whatever is
    pressed afterwards, the draft's day lies in 1..[number_of_days] of its
    year and month whenever the mode is the day field or a later one, in
    particular when the day field is entered and when the draft is handed
    to [rtc_set_datetime]; Select in the month field clamps the day down to
    the day count of the month and year, and Left and Right in the day
    field wrap within 1..[number_of_days]: Left takes day 1 to the day
    count and every other day one down, Right takes the day count to 1 and
    every other day one up, and neither changes anything else. *)
Theorem day_within_month (inputs : list Input) (s0 : State) :
  current_mode s0 = SET_CLOCK_YEAR ->
  well_formed (set_date s0) ->
  Forall rtc_delivers_datetime inputs ->
  let s := core1_main rtc_set_datetime inputs s0 in
  let days t := number_of_days (year (set_date t)) (month (set_date t)) in
  (day_checked (current_mode s) = true -> 1 <= day (set_date s) <= days s)
  /\ (forall i, current_mode s = SET_CLOCK_MONTH -> selects i ->
      let s' := core1_step rtc_set_datetime i s in
      current_mode s' = SET_CLOCK_DAY /\ days s' = days s
      /\ day (set_date s') = Z.min (day (set_date s)) (days s)
      /\ 1 <= day (set_date s') <= days s')
  /\ (forall i, current_mode s = SET_CLOCK_DAY -> edits i ->
      let s' := core1_step rtc_set_datetime i s in
      current_mode s' = SET_CLOCK_DAY /\ days s' = days s
      /\ 1 <= day (set_date s') <= days s'
      /\ (goes_left i ->
          s' = edit_set_date
                 (with_day (if day (set_date s) =? 1 then days s
                            else day (set_date s) - 1)) s)
      /\ (goes_right i ->
          s' = edit_set_date
                 (with_day (if day (set_date s) =? days s then 1
                            else day (set_date s) + 1)) s))
  /\ (forall i, current_mode s = SET_CLOCK_SEC -> selects i ->
      rtc_calls (core1_step rtc_set_datetime i s)
      = RtcSetDatetime (set_date s) (rtc_set_datetime (set_date s))
          :: rtc_calls s
      /\ 1 <= day (set_date s) <= days s).
Proof.
  intros Hm0 Hwf Hall s days.
  destruct Hwf as (Hy0 & Hmo0 & Hd0 & Hrest0).
  assert (Hy : 0 <= year (set_date s) <= 4095)
    by (apply year_range_run; assumption).
  assert (Hr : draft_in_range (set_date s))
    by (apply draft_in_range_run; [assumption|split; assumption]).
  destruct (day_bound_run inputs s0) as [H1 Hck]; try assumption; try lia.
  { rewrite Hm0. discriminate. }
  fold s in H1, Hck.
  assert (Hplain : day_num_of (set_date s) = days s)
    by (apply day_num_of_plain; [exact Hy | apply Hr]).
  rewrite Hplain in Hck.
  pose proof (number_of_days_range (year (set_date s)) (month (set_date s)))
    as Hdn. fold (days s) in Hdn.
  split; [|split; [|split]].
  - intros Hc. split; [exact H1 | exact (Hck Hc)].
  - intros i Hm Hs s'. subst s'. rewrite (month_select_pass i s Hm Hs).
    rewrite Hplain. subst days. destruct (set_date s); cbn in *.
    repeat split; lia.
  - intros i Hm Hed s'. subst s'.
    rewrite Hm in Hck. specialize (Hck eq_refl).
    assert (Hspan : field_span s = Some (1, days s, day (set_date s)))
      by (unfold field_span; rewrite Hm, Hplain; reflexivity).
    assert (Hdec : dec_wrap Int.int8 1 (days s) (day (set_date s))
                   = if day (set_date s) =? 1 then days s
                     else day (set_date s) - 1).
    { unfold dec_wrap. destruct (day (set_date s) =? 1); [reflexivity|].
      apply int8_id. lia. }
    assert (Hinc : inc_wrap Int.int8 (days s) 1 (day (set_date s))
                   = if day (set_date s) =? days s then 1
                     else day (set_date s) + 1).
    { unfold inc_wrap. destruct (day (set_date s) =? days s); [reflexivity|].
      apply int8_id. lia. }
    assert (Hleft : goes_left i ->
              core1_step rtc_set_datetime i s
              = edit_set_date
                  (with_day (if day (set_date s) =? 1 then days s
                             else day (set_date s) - 1)) s).
    { intros Hl.
      rewrite (left_pass rtc_set_datetime i s 1 (days s) (day (set_date s))
                 Hl Hspan).
      unfold put_field. rewrite Hm. cbn [field_conv]. rewrite Hdec.
      reflexivity. }
    assert (Hright : goes_right i ->
              core1_step rtc_set_datetime i s
              = edit_set_date
                  (with_day (if day (set_date s) =? days s then 1
                             else day (set_date s) + 1)) s).
    { intros Hrgt.
      rewrite (right_pass rtc_set_datetime i s 1 (days s) (day (set_date s))
                 Hrgt Hspan).
      unfold put_field. rewrite Hm. cbn [field_conv]. rewrite Hinc.
      reflexivity. }
    assert (Hput : forall w, 1 <= w <= days s ->
              current_mode (edit_set_date (with_day w) s) = SET_CLOCK_DAY
              /\ days (edit_set_date (with_day w) s) = days s
              /\ 1 <= day (set_date (edit_set_date (with_day w) s))
                 <= days (edit_set_date (with_day w) s)).
    { intros w Hw. subst days. clear - Hm Hw.
      destruct s as [? ? ? ? ? ? ? ? sd ? ? ?]; destruct sd; cbn in *.
      split; [exact Hm|]. split; [reflexivity|]. exact Hw. }
    assert (Hthree : current_mode (core1_step rtc_set_datetime i s)
                     = SET_CLOCK_DAY
                     /\ days (core1_step rtc_set_datetime i s) = days s
                     /\ 1 <= day (set_date (core1_step rtc_set_datetime i s))
                        <= days (core1_step rtc_set_datetime i s)).
    { destruct Hed as [Hl | Hrgt].
      - rewrite (Hleft Hl). apply Hput.
        destruct (Z.eqb_spec (day (set_date s)) 1); lia.
      - rewrite (Hright Hrgt). apply Hput.
        destruct (Z.eqb_spec (day (set_date s)) (days s)); lia. }
    destruct Hthree as (Hmode & Hdays & Hrange).
    split; [exact Hmode|]. split; [exact Hdays|]. split; [exact Hrange|].
    split; [exact Hleft|exact Hright].
  - intros i Hm Hs. rewrite (clock_commit_pass rtc_set_datetime i s Hm Hs).
    split; [reflexivity|]. rewrite Hm in Hck. split; [exact H1 | exact (Hck eq_refl)].
Qed.

End Ranges.

(** ** Setting the alarm *)

Section AlarmWizard.

Variable rtc_set_datetime : datetime_t -> bool.

(** A run of edits in a wizard field changes that field and nothing else. *)
Lemma edits_run inputs : forall s lo hi v,
  field_span s = Some (lo, hi, v) -> Forall edits inputs ->
  exists w, core1_main rtc_set_datetime inputs s = put_field w s.
Proof.
  induction inputs as [|i rest IH]; intros s lo hi v Hf Hall.
  - exists v. cbn. symmetry. eapply put_field_same; eassumption.
  - inversion Hall as [|? ? Hi Hrest]; subst. cbn [core1_main].
    assert (Hstep : exists w, core1_step rtc_set_datetime i s = put_field w s).
    { destruct Hi as [Hl | Hr].
      - eexists. eapply left_pass; eassumption.
      - eexists. eapply right_pass; eassumption. }
    destruct Hstep as [w ->].
    destruct (IH (put_field w s) lo hi w (field_span_put s lo hi v w Hf) Hrest)
      as [w' ->].
    exists w'. apply put_field_put.
Qed.

Lemma alarm_menu_select_set i s :
  current_mode s = ALARM_MENU -> menu_index s = 1 -> selects i ->
  core1_step rtc_set_datetime i s
  = with_menu_index 0
      (with_alarm_settime (alarmtime s) (with_current_mode SET_ALARM_HOUR s)).
Proof. intros Hm Hi Hs. pick_branch. rewrite Hi. reflexivity. Qed.

Lemma alarm_hour_select i s :
  current_mode s = SET_ALARM_HOUR -> selects i ->
  core1_step rtc_set_datetime i s = with_current_mode SET_ALARM_MIN s.
Proof. intros Hm Hs. pick_branch. reflexivity. Qed.

Lemma alarm_min_select i s :
  current_mode s = SET_ALARM_MIN -> selects i ->
  core1_step rtc_set_datetime i s = with_current_mode SET_ALARM_SEC s.
Proof. intros Hm Hs. pick_branch. reflexivity. Qed.

Lemma alarm_commit_pass i s :
  current_mode s = SET_ALARM_SEC -> selects i ->
  core1_step rtc_set_datetime i s
  = with_current_mode SET_ALARM_FINAL
      (with_alarm_enabled true
         (log_call (RtcSetAlarm (alarm_settime s))
            (with_alarmtime (alarm_settime s) s))).
Proof. intros Hm Hs. pick_branch. reflexivity. Qed.

(** C3: from [ALARM_MENU] with the cursor on 1: Select, edits that bring
    the hour to 7, Select, edits that bring the minute to 30, Select, edits
    that bring the second to 0, Select.  The armed [alarmtime] then reads
    7:30:00 (its date fields as before), the peripheral has been armed
    with exactly that value, [alarm_enabled] is true and the mode is
    [SET_ALARM_FINAL]. *)
Theorem alarm_wizard_scenario (s : State) (sel1 sel2 sel3 sel4 : Input)
    (eh em es : list Input) :
  current_mode s = ALARM_MENU ->
  menu_index s = 1 ->
  selects sel1 -> selects sel2 -> selects sel3 -> selects sel4 ->
  Forall edits eh -> Forall edits em -> Forall edits es ->
  let s1 := core1_step rtc_set_datetime sel1 s in
  let s2 := core1_main rtc_set_datetime eh s1 in
  let s3 := core1_step rtc_set_datetime sel2 s2 in
  let s4 := core1_main rtc_set_datetime em s3 in
  let s5 := core1_step rtc_set_datetime sel3 s4 in
  let s6 := core1_main rtc_set_datetime es s5 in
  let s7 := core1_step rtc_set_datetime sel4 s6 in
  hour (alarm_settime s2) = 7 ->
  min (alarm_settime s4) = 30 ->
  sec (alarm_settime s6) = 0 ->
  alarmtime s7 = with_sec 0 (with_min 30 (with_hour 7 (alarmtime s)))
  /\ hour (alarmtime s7) = 7 /\ min (alarmtime s7) = 30
  /\ sec (alarmtime s7) = 0
  /\ alarm_enabled s7 = true
  /\ current_mode s7 = SET_ALARM_FINAL
  /\ rtc_calls s7 = RtcSetAlarm (alarmtime s7) :: rtc_calls s.
Proof.
  intros Hm Hi H1 H2 H3 H4 Heh Hem Hes s1 s2 s3 s4 s5 s6 s7.
  subst s7 s6 s5 s4 s3 s2 s1.
  rewrite (alarm_menu_select_set sel1 s Hm Hi H1).
  set (s1 := with_menu_index 0 _).
  destruct (edits_run eh s1 0 23 (hour (alarmtime s)) eq_refl Heh) as [h ->].
  rewrite (alarm_hour_select sel2 (put_field h s1) eq_refl H2).
  set (s3 := with_current_mode SET_ALARM_MIN _).
  destruct (edits_run em s3 0 59 (min (alarmtime s)) eq_refl Hem) as [m ->].
  rewrite (alarm_min_select sel3 (put_field m s3) eq_refl H3).
  set (s5 := with_current_mode SET_ALARM_SEC _).
  destruct (edits_run es s5 0 59 (sec (alarmtime s)) eq_refl Hes) as [x ->].
  rewrite (alarm_commit_pass sel4 (put_field x s5) eq_refl H4).
  subst s5 s3 s1. destruct s as [? ? ? ? ? ? ? ? ? at_ ? ?].
  destruct at_. cbn. intros -> -> ->. repeat split.
Qed.

End AlarmWizard.

(** ** The firing protocol *)

Lemma buzz_period : buzz BUZZER_FREQ = 2144.
Proof. reflexivity. Qed.

Lemma alarm_end_id start :
  0 <= start ->
  start + MAX_ALARM_TIME_SEC * 1000000 < 18446744073709551616 ->
  alarm_end start = start + 60000000.
Proof.
  intros H0 Hmax. unfold alarm_end. cbv zeta.
  rewrite uint64_id by (unfold MAX_ALARM_TIME_SEC in *; lia).
  reflexivity.
Qed.

(** The condition of a loop at test [k]. *)
Lemma loop_goes_on level (select : nat -> bool) (clock : nat -> Z) end_ k :
  Bool.eqb (select k) level && (clock k <? end_) = true ->
  select k = level /\ clock k < end_.
Proof.
  intros Hc. apply andb_true_iff in Hc. destruct Hc as [Hs Hlt].
  split; [apply Bool.eqb_prop, Hs | apply Z.ltb_lt, Hlt].
Qed.

Lemma loop_is_left level (select : nat -> bool) (clock : nat -> Z) end_ k :
  Bool.eqb (select k) level && (clock k <? end_) = false <->
  select k <> level \/ end_ <= clock k.
Proof.
  rewrite andb_false_iff, Bool.eqb_false_iff, Z.ltb_ge. reflexivity.
Qed.

(** A loop that is left is left at a test that finds its condition false,
    every test before having found it true. *)
Lemma buzz_while_exit level select clock end_ : forall fuel k n,
  buzz_while fuel level select clock end_ k = Some n ->
  (k <= n)%nat
  /\ (forall j, (k <= j < n)%nat -> select j = level /\ clock j < end_)
  /\ (select n <> level \/ end_ <= clock n).
Proof.
  induction fuel as [|fuel IH]; intros k n H; cbn [buzz_while] in H;
    destruct (Bool.eqb (select k) level && (clock k <? end_)) eqn:Hc;
    try discriminate.
  - inversion H; subst. split; [lia|]. split; [intros; lia|].
    apply loop_is_left, Hc.
  - apply IH in H. destruct H as (Hle & Hin & Hout).
    apply loop_goes_on in Hc.
    split; [lia|]. split; [|exact Hout].
    intros j Hj. destruct (Nat.eq_dec j k) as [-> | Hne]; [exact Hc|].
    apply Hin. lia.
  - inversion H; subst. split; [lia|]. split; [intros; lia|].
    apply loop_is_left, Hc.
Qed.

(** A loop whose condition is false at some test [m], with fuel to get
    there, is left, at [m] or before. *)
Lemma buzz_while_leaves level select clock end_ m : forall fuel k,
  (k <= m)%nat -> (m - k <= fuel)%nat ->
  select m <> level \/ end_ <= clock m ->
  exists n,
    buzz_while fuel level select clock end_ k = Some n /\ (n <= m)%nat.
Proof.
  induction fuel as [|fuel IH]; intros k Hkm Hfuel Hout; cbn [buzz_while];
    destruct (Bool.eqb (select k) level && (clock k <? end_)) eqn:Hc.
  - assert (m = k) by lia. subst m.
    apply loop_is_left in Hout. congruence.
  - exists k. split; [reflexivity|lia].
  - destruct (Nat.eq_dec m k) as [-> | Hne].
    + apply loop_is_left in Hout. congruence.
    + apply IH; [lia|lia|exact Hout].
  - exists k. split; [reflexivity|lia].
Qed.

(** A loop is left at the first test that finds its condition false. *)
Lemma buzz_while_at level select clock end_ fuel k n :
  (k <= n)%nat -> (n - k <= fuel)%nat ->
  (forall j, (k <= j < n)%nat -> select j = level /\ clock j < end_) ->
  select n <> level \/ end_ <= clock n ->
  buzz_while fuel level select clock end_ k = Some n.
Proof.
  intros Hkn Hfuel Hin Hout.
  destruct (buzz_while_leaves level select clock end_ n fuel k Hkn Hfuel Hout)
    as (n' & Hn' & Hle).
  destruct (buzz_while_exit _ _ _ _ _ _ _ Hn') as (Hk & _ & Hout').
  destruct (Nat.eq_dec n' n) as [-> | Hne]; [exact Hn'|].
  exfalso. destruct (Hin n' ltac:(lia)) as [Hs Hlt].
  destruct Hout' as [Hne' | Hge]; [exact (Hne' Hs) | lia].
Qed.

(** Tests that are at least a buzz apart. *)
Lemma clock_spaced (clock : nat -> Z) k : forall n,
  (forall j, (k <= j < k + n)%nat ->
     clock j + buzz BUZZER_FREQ <= clock (S j)) ->
  clock k + Z.of_nat n * buzz BUZZER_FREQ <= clock (k + n)%nat.
Proof.
  rewrite buzz_period.
  induction n as [|n IH]; intros Hsp.
  - rewrite Nat.add_0_r. lia.
  - replace (k + S n)%nat with (S (k + n)) by lia.
    pose proof (Hsp (k + n)%nat ltac:(lia)) as Hlast.
    assert (Hrest : clock k + Z.of_nat n * 2144 <= clock (k + n)%nat)
      by (apply IH; intros j Hj; apply Hsp; lia).
    lia.
Qed.

(** With every pass taking at least a buzz, a loop is left once the fuel
    covers the distance to the deadline. *)
Lemma buzz_while_total level select clock end_ : forall fuel k,
  (forall j, (k <= j)%nat -> select j = level -> clock j < end_ ->
     clock j + buzz BUZZER_FREQ <= clock (S j)) ->
  end_ - clock k < Z.of_nat fuel * buzz BUZZER_FREQ ->
  exists n, buzz_while fuel level select clock end_ k = Some n.
Proof.
  rewrite buzz_period.
  induction fuel as [|fuel IH]; intros k Hsp Hfuel; cbn [buzz_while];
    destruct (Bool.eqb (select k) level && (clock k <? end_)) eqn:Hc;
    try (exists k; reflexivity).
  - apply loop_goes_on in Hc. lia.
  - apply loop_goes_on in Hc. destruct Hc as [Hs Hlt].
    pose proof (Hsp k (Nat.le_refl k) Hs Hlt) as Hstep.
    apply IH.
    + intros j Hj. apply Hsp. lia.
    + lia.
Qed.

(** The buzzes of a loop that is left at test [n], every pass taking at
    least a buzz, fit between its first test and the deadline. *)
Lemma buzz_while_count level select clock end_ fuel k n :
  buzz_while fuel level select clock end_ k = Some n ->
  (forall j, (k <= j)%nat -> select j = level -> clock j < end_ ->
     clock j + buzz BUZZER_FREQ <= clock (S j)) ->
  clock k + Z.of_nat (n - k) * buzz BUZZER_FREQ <= clock n
  /\ (n = k \/ clock k + Z.of_nat (n - k - 1) * buzz BUZZER_FREQ < end_).
Proof.
  intros Hn Hsp.
  destruct (buzz_while_exit _ _ _ _ _ _ _ Hn) as (Hkn & Hin & _).
  split.
  - replace n with (k + (n - k))%nat at 2 by lia.
    apply clock_spaced. intros j Hj.
    destruct (Hin j ltac:(lia)) as [Hs Hlt]. apply Hsp; [lia|exact Hs|exact Hlt].
  - destruct (Nat.eq_dec n k) as [-> | Hne]; [left; reflexivity|right].
    destruct (Hin (n - 1)%nat ltac:(lia)) as [_ Hlt].
    assert (Hto : clock k + Z.of_nat (n - k - 1) * buzz BUZZER_FREQ
                  <= clock (k + (n - k - 1))%nat).
    { apply clock_spaced. intros j Hj.
      destruct (Hin j ltac:(lia)) as [Hs Hlt']. apply Hsp; [lia|exact Hs|exact Hlt']. }
    replace (k + (n - k - 1))%nat with (n - 1)%nat in Hto by lia. lia.
Qed.

(** An alarm nobody acknowledges: the first loop is left at the first test
    that reads the clock at or past the deadline, and the second loop at
    the test after it. *)
Lemma alarm_cleared_at_unacknowledged fuel clock start n1 :
  (n1 <= fuel)%nat ->
  (forall j, (j < n1)%nat -> clock j < alarm_end start) ->
  alarm_end start <= clock n1 ->
  alarm_cleared_at fuel never_pressed clock start = Some (S n1).
Proof.
  intros Hfuel Hin Hout. unfold alarm_cleared_at. cbv zeta.
  rewrite (buzz_while_at false never_pressed clock (alarm_end start) fuel O n1).
  - apply buzz_while_at.
    + lia.
    + lia.
    + intros j Hj. lia.
    + left. discriminate.
  - lia.
  - lia.
  - intros j Hj. split; [reflexivity|]. apply Hin. lia.
  - right. exact Hout.
Qed.

(** An alarm acknowledged in time: the select button is found released up
    to test [a], pressed from test [a] up to test [b], and released at test
    [b], every test up to [b] reading the clock before the deadline. *)
Lemma alarm_cleared_at_edge fuel select clock start a b :
  (a < b)%nat -> (b <= fuel)%nat ->
  (forall k, (k < a)%nat -> select k = false) ->
  (forall k, (a <= k < b)%nat -> select k = true) ->
  select b = false ->
  (forall k, (k < b)%nat -> clock k < alarm_end start) ->
  alarm_cleared_at fuel select clock start = Some b.
Proof.
  intros Hab Hfuel Hlow Hhigh Hrel Hin. unfold alarm_cleared_at. cbv zeta.
  rewrite (buzz_while_at false select clock (alarm_end start) fuel O a).
  - apply buzz_while_at.
    + lia.
    + lia.
    + intros j Hj. split; [apply Hhigh; lia | apply Hin; lia].
    + left. rewrite Hrel. discriminate.
  - lia.
  - lia.
  - intros j Hj. split; [apply Hlow; lia | apply Hin; lia].
  - left. rewrite (Hhigh a) by lia. discriminate.
Qed.

(** C4 does not hold of the code: the handler looks at the clock only
    between two buzzes, so it clears the firing flag only after a test that
    reads the clock at or past the deadline, start + 60 000 000
    microseconds, and that test comes later than the deadline.  With an
    alarm fired one hour after power-up that nobody acknowledges: when the
    passes of the loop take nothing but their buzz (2144 microseconds), the
    tests 0..27985 read the clock before the deadline, the flag is still
    set at test 27986, which reads 60 001 984 microseconds after the fire,
    and it is cleared after test 27987; when a pass takes 6 microseconds
    more and the first test comes 1 microsecond after the fire, the flag is
    still set at test 27907, 60 000 051 microseconds after the fire.  The
    firing flag remains true for more than 60 seconds. *)
Theorem firing_outlasts_60_seconds :
  alarm_cleared_at fuel_30000 never_pressed
    (paced_clock (buzz BUZZER_FREQ) fired_at_one_hour) fired_at_one_hour
  = Some (Z.to_nat 27987)
  /\ firing_at fuel_30000 never_pressed
       (paced_clock (buzz BUZZER_FREQ) fired_at_one_hour) fired_at_one_hour
       (Z.to_nat 27986) = true
  /\ paced_clock (buzz BUZZER_FREQ) fired_at_one_hour (Z.to_nat 27986)
     = fired_at_one_hour + 60001984
  /\ alarm_cleared_at fuel_30000 never_pressed
       (paced_clock (buzz BUZZER_FREQ + 6) (fired_at_one_hour + 1))
       fired_at_one_hour
     = Some (Z.to_nat 27908)
  /\ firing_at fuel_30000 never_pressed
       (paced_clock (buzz BUZZER_FREQ + 6) (fired_at_one_hour + 1))
       fired_at_one_hour (Z.to_nat 27907) = true
  /\ paced_clock (buzz BUZZER_FREQ + 6) (fired_at_one_hour + 1)
       (Z.to_nat 27907)
     = fired_at_one_hour + 60000051
  /\ fired_at_one_hour + MAX_ALARM_TIME_SEC * 1000000
     < fired_at_one_hour + 60000051.
Proof.
  assert (Hend : alarm_end fired_at_one_hour = 3660000000) by reflexivity.
  assert (Hbare : alarm_cleared_at fuel_30000 never_pressed
                    (paced_clock (buzz BUZZER_FREQ) fired_at_one_hour)
                    fired_at_one_hour
                  = Some (Z.to_nat 27987)).
  { replace (Z.to_nat 27987) with (S (Z.to_nat 27986)) by lia.
    apply alarm_cleared_at_unacknowledged.
    - unfold fuel_30000. lia.
    - intros j Hj. rewrite Hend. unfold paced_clock, fired_at_one_hour.
      rewrite buzz_period. lia.
    - rewrite Hend. unfold paced_clock, fired_at_one_hour.
      rewrite buzz_period. lia. }
  assert (Hslow : alarm_cleared_at fuel_30000 never_pressed
                    (paced_clock (buzz BUZZER_FREQ + 6)
                       (fired_at_one_hour + 1))
                    fired_at_one_hour
                  = Some (Z.to_nat 27908)).
  { replace (Z.to_nat 27908) with (S (Z.to_nat 27907)) by lia.
    apply alarm_cleared_at_unacknowledged.
    - unfold fuel_30000. lia.
    - intros j Hj. rewrite Hend. unfold paced_clock, fired_at_one_hour.
      rewrite buzz_period. lia.
    - rewrite Hend. unfold paced_clock, fired_at_one_hour.
      rewrite buzz_period. lia. }
  split; [exact Hbare|].
  split; [unfold firing_at; rewrite Hbare; apply Nat.leb_le; lia|].
  split; [unfold paced_clock, fired_at_one_hour; rewrite buzz_period; lia|].
  split; [exact Hslow|].
  split; [unfold firing_at; rewrite Hslow; apply Nat.leb_le; lia|].
  split; [unfold paced_clock, fired_at_one_hour; rewrite buzz_period; lia|].
  unfold MAX_ALARM_TIME_SEC. lia.
Qed.

(** * Worked examples *)

(** C7 as stated fails for the alarm wizard: it is entered from
    [ALARM_MENU], and Back in its first field leads to [MENU]. *)
Lemma back_in_alarm_hour_skips_alarm_menu :
  current_mode alarm_menu_on_set = ALARM_MENU
  /\ alarm_hour_entered
     = core1_step fields_in_range (press press_select) alarm_menu_on_set
  /\ current_mode alarm_hour_entered = SET_ALARM_HOUR
  /\ current_mode
       (core1_step fields_in_range (press press_back) alarm_hour_entered)
     = MENU
  /\ current_mode
       (core1_step fields_in_range (press press_back) alarm_hour_entered)
     <> ALARM_MENU.
Proof. repeat split. discriminate. Qed.

Lemma back_leaves_field_witness :
  goes_back (press press_back)
  /\ core1_step fields_in_range (press press_back) alarm_hour_entered
     = with_current_mode MENU alarm_hour_entered
  /\ core1_step fields_in_range (press press_back) day_field_entered
     = with_current_mode SET_CLOCK_MONTH day_field_entered.
Proof.
  assert (Hb : goes_back (press press_back)) by (repeat split).
  destruct (back_leaves_field fields_in_range (press press_back)
              alarm_hour_entered Hb) as (_ & Hhour & _).
  destruct (back_leaves_field fields_in_range (press press_back)
              day_field_entered Hb) as (_ & _ & Hprev).
  split; [exact Hb|]. split.
  - apply Hhour. reflexivity.
  - apply Hprev. reflexivity.
Defined.

Lemma day_within_month_witness :
  current_mode wizard_entry = SET_CLOCK_YEAR
  /\ well_formed (set_date wizard_entry)
  /\ Forall rtc_delivers_datetime
       [press press_select; press press_right; press press_select]
  /\ current_mode day_field_entered = SET_CLOCK_DAY
  /\ month (set_date day_field_entered) = 2
  /\ day (set_date day_field_entered) = 28
  /\ 1 <= day (set_date day_field_entered) <= number_of_days 2023 2
  /\ goes_right (press press_right)
  /\ core1_step fields_in_range (press press_right) day_field_entered
     = edit_set_date (with_day 1) day_field_entered
  /\ goes_left (press press_left)
  /\ core1_step fields_in_range (press press_left) day_field_entered
     = edit_set_date (with_day 27) day_field_entered.
Proof.
  assert (Hwf : well_formed rtc_date_example).
  { unfold well_formed. cbn. lia. }
  assert (Hall : Forall rtc_delivers_datetime
                   [press press_select; press press_right; press press_select]).
  { repeat (apply Forall_cons; [exact Hwf|]). apply Forall_nil. }
  assert (Hr : goes_right (press press_right)) by (split; reflexivity).
  assert (Hl : goes_left (press press_left)) by reflexivity.
  split; [reflexivity|]. split; [exact Hwf|]. split; [exact Hall|].
  split; [reflexivity|]. split; [reflexivity|]. split; [reflexivity|].
  destruct (day_within_month fields_in_range
              [press press_select; press press_right; press press_select]
              wizard_entry eq_refl Hwf Hall) as (Hday & _ & Hedit & _).
  split; [apply Hday; reflexivity|].
  split; [exact Hr|].
  split.
  { destruct (Hedit (press press_right) eq_refl (or_intror Hr))
      as (_ & _ & _ & _ & Hright).
    exact (Hright Hr). }
  split; [exact Hl|].
  destruct (Hedit (press press_left) eq_refl (or_introl Hl))
    as (_ & _ & _ & Hleft & _).
  exact (Hleft Hl).
Defined.

Lemma alarm_wizard_scenario_witness :
  current_mode alarm_menu_on_set = ALARM_MENU
  /\ menu_index alarm_menu_on_set = 1
  /\ selects (press press_select)
  /\ Forall edits [press press_left]
  /\ Forall edits (repeat (press press_right) 30)
  /\ (let s1 := core1_step fields_in_range (press press_select)
                  alarm_menu_on_set in
      let s2 := core1_main fields_in_range [press press_left] s1 in
      let s3 := core1_step fields_in_range (press press_select) s2 in
      let s4 := core1_main fields_in_range (repeat (press press_right) 30) s3 in
      let s5 := core1_step fields_in_range (press press_select) s4 in
      let s6 := core1_main fields_in_range [] s5 in
      let s7 := core1_step fields_in_range (press press_select) s6 in
      hour (alarm_settime s2) = 7
      /\ min (alarm_settime s4) = 30
      /\ sec (alarm_settime s6) = 0
      /\ alarmtime s7
         = with_sec 0 (with_min 30 (with_hour 7 (alarmtime alarm_menu_on_set)))
      /\ alarm_enabled s7 = true
      /\ current_mode s7 = SET_ALARM_FINAL
      /\ rtc_calls s7
         = RtcSetAlarm (alarmtime s7) :: rtc_calls alarm_menu_on_set).
Proof.
  assert (Hsel : selects (press press_select)) by (repeat split).
  assert (Hh : Forall edits [press press_left]).
  { apply Forall_cons; [left; reflexivity | apply Forall_nil]. }
  assert (Hm : Forall edits (repeat (press press_right) 30)).
  { apply Forall_forall. intros i Hi. apply repeat_spec in Hi. subst i.
    right. split; reflexivity. }
  split; [reflexivity|]. split; [reflexivity|]. split; [exact Hsel|].
  split; [exact Hh|]. split; [exact Hm|].
  intros s1 s2 s3 s4 s5 s6 s7.
  assert (H7 : hour (alarm_settime s2) = 7) by (vm_compute; reflexivity).
  assert (H30 : min (alarm_settime s4) = 30) by (vm_compute; reflexivity).
  assert (H0 : sec (alarm_settime s6) = 0) by (vm_compute; reflexivity).
  pose proof (alarm_wizard_scenario fields_in_range alarm_menu_on_set
                (press press_select) (press press_select)
                (press press_select) (press press_select) [press press_left]
                (repeat (press press_right) 30) []
                eq_refl eq_refl Hsel Hsel Hsel Hsel Hh Hm (Forall_nil _)
                H7 H30 H0)
    as (Hat & _ & _ & _ & Hen & Hmode & Hcalls).
  split; [exact H7|]. split; [exact H30|]. split; [exact H0|].
  split; [exact Hat|]. split; [exact Hen|]. split; [exact Hmode|].
  exact Hcalls.
Defined.

Lemma clock_idle_sleep_wake_witness :
  current_mode clock_shown = CLOCK
  /\ sleep_mode_count clock_shown = 0
  /\ any_button (buttons (press press_left)) = true
  /\ core1_main fields_in_range (repeat (press no_buttons) 499) clock_shown
     = with_sleep_mode_count 499 clock_shown
  /\ core1_main fields_in_range
       (repeat (press no_buttons) 499 ++ [press no_buttons]) clock_shown
     = with_current_mode SLEEP_MODE clock_shown
  /\ core1_step fields_in_range (press press_left)
       (with_current_mode SLEEP_MODE clock_shown)
     = clock_shown.
Proof.
  assert (Hidle : Forall (fun i => back_button (buttons i) = false)
                    (repeat (press no_buttons) 499)).
  { apply Forall_forall. intros i Hi. apply repeat_spec in Hi. subst i.
    reflexivity. }
  assert (Hlen : sleep_mode_count clock_shown
                 + Z.of_nat (List.length (repeat (press no_buttons) 499))
                 = 499).
  { rewrite repeat_length. reflexivity. }
  destruct (clock_idle_sleep_wake fields_in_range (press no_buttons)
              (press press_left) clock_shown
              (with_current_mode SLEEP_MODE clock_shown)
              (repeat (press no_buttons) 499)
              eq_refl eq_refl ltac:(cbn; lia) Hidle Hlen eq_refl eq_refl)
    as (_ & _ & _ & Hrun & Hsleep & Hwake & _).
  split; [reflexivity|]. split; [reflexivity|]. split; [reflexivity|].
  split; [exact Hrun|]. split; [exact Hsleep|]. exact Hwake.
Defined.

Lemma right_presses_cycle_witness :
  goes_right (press press_right)
  /\ field_span day_field_entered = Some (1, 28, 28)
  /\ Nat.iter 28 (core1_step fields_in_range (press press_right))
       day_field_entered
     = day_field_entered.
Proof.
  assert (Hr : goes_right (press press_right)) by (split; reflexivity).
  split; [exact Hr|]. split; [reflexivity|].
  apply (right_presses_cycle fields_in_range (press press_right)
           day_field_entered 1 28 28 Hr eq_refl).
  lia.
Defined.

Lemma rejected_commit_is_surfaced_witness :
  current_mode unseeded_draft_at_sec = SET_CLOCK_SEC
  /\ selects (press_no_rtc press_select)
  /\ fields_in_range (set_date unseeded_draft_at_sec) = false
  /\ (let s' := core1_step fields_in_range (press_no_rtc press_select)
                  unseeded_draft_at_sec in
      datetime_set s' = false
      /\ current_mode s' = SET_CLOCK_FINAL
      /\ main_step (press_no_rtc no_buttons) s'
         = Some (s', [Print 8 8 (Lit "INVALID"); Print 24 32 (Lit "DATE")])
      /\ current_mode
           (core1_step fields_in_range (press_no_rtc press_select) s')
         = CLOCK).
Proof.
  assert (Hsel : selects (press_no_rtc press_select)) by (repeat split).
  destruct (rejected_commit_is_surfaced fields_in_range
              (press_no_rtc press_select) (press_no_rtc no_buttons)
              (press_no_rtc press_select) unseeded_draft_at_sec
              eq_refl Hsel eq_refl)
    as (Hds & Hmode & _ & Hscreen & _ & _ & Hleave & _).
  split; [reflexivity|]. split; [exact Hsel|]. split; [reflexivity|].
  split; [exact Hds|]. split; [exact Hmode|].
  split; [apply Hscreen; reflexivity|].
  rewrite (Hleave eq_refl). reflexivity.
Defined.

Lemma alarmtime_written_only_by_commit_witness :
  commits_alarm (press press_select) alarm_menu_entered = false
  /\ alarm_enabled
       (core1_step fields_in_range (press press_select) alarm_menu_entered)
     = true
  /\ alarmtime
       (core1_step fields_in_range (press press_select) alarm_menu_entered)
     = alarmtime alarm_menu_entered.
Proof.
  split; [reflexivity|]. split; [reflexivity|].
  apply (alarmtime_written_only_by_commit fields_in_range
           (press press_select) alarm_menu_entered eq_refl).
Defined.

Lemma draft_ranges_preserved_witness :
  draft_in_range (set_date wizard_entry)
  /\ Forall rtc_delivers_datetime [press press_select; press press_left]
  /\ (let s' := core1_main fields_in_range
                  [press press_select; press press_left] wizard_entry in
      month (set_date s') = 12
      /\ draft_in_range (set_date s')
      /\ exists f, set_clock_screen s' = Some f).
Proof.
  assert (Hr : draft_in_range (set_date wizard_entry)).
  { unfold draft_in_range. cbn. lia. }
  assert (Hwf : well_formed rtc_date_example).
  { unfold well_formed. cbn. lia. }
  assert (Hall : Forall rtc_delivers_datetime
                   [press press_select; press press_left]).
  { repeat (apply Forall_cons; [exact Hwf|]). apply Forall_nil. }
  destruct (draft_ranges_preserved fields_in_range
              [press press_select; press press_left] wizard_entry Hr Hall)
    as (_ & Hd & _ & _ & Hscreen & _).
  split; [exact Hr|]. split; [exact Hall|]. split; [reflexivity|].
  split; [exact Hd | exact Hscreen].
Defined.

(** * Further properties *)

(** ** Calendar utility *)

(** X1: [number_of_days] answers 28..31 whatever it is given, and a month
    outside 1..12 is counted as February. *)
Theorem number_of_days_any_month (year month : Z) :
  28 <= number_of_days year month <= 31
  /\ (month < 1 \/ 12 < month ->
      number_of_days year month = number_of_days year 2).
Proof.
  split; [apply number_of_days_range|].
  intros Hout. unfold number_of_days, JAN, FEB, MAR, APR, MAY, JUN, JUL, AUG,
    SEP, OCT, NOV, DEC.
  repeat match goal with
         | |- context [month =? ?k] =>
             replace (month =? k) with false
               by (symmetry; apply Z.eqb_neq; lia)
         end.
  reflexivity.
Qed.

(** X2: the day counts repeat every 400 years, as long as the later year
    still fits the 16-bit parameter: for a year up to 65135 the call with
    the year 400 later, converted to [uint16_t], gives the same count.
    Past that the year wraps, and the counts differ: 65300 + 400 is passed
    as 164, a leap year, while 65300 is not one. *)
Theorem number_of_days_400_years (year month : Z) :
  0 <= year <= 65135 ->
  number_of_days (Int.uint16 (year + 400)) month = number_of_days year month
  /\ number_of_days (Int.uint16 (65300 + 400)) 2 = 29
  /\ number_of_days 65300 2 = 28.
Proof.
  intros Hy. split; [|split; reflexivity].
  rewrite uint16_id by lia.
  unfold number_of_days.
  replace ((year + 400) mod 400) with (year mod 400)
    by (symmetry; apply (Z_mod_plus_full year 1 400)).
  replace ((year + 400) mod 100) with (year mod 100)
    by (symmetry; apply (Z_mod_plus_full year 4 100)).
  replace ((year + 400) mod 4) with (year mod 4)
    by (symmetry; apply (Z_mod_plus_full year 100 4)).
  reflexivity.
Qed.

Lemma number_of_days_400_years_witness :
  0 <= 1900 <= 65135
  /\ number_of_days (Int.uint16 (1900 + 400)) 2 = number_of_days 1900 2.
Proof.
  assert (Hy : 0 <= 1900 <= 65135) by lia.
  split; [exact Hy|].
  apply (number_of_days_400_years 1900 2 Hy).
Defined.

(** X3: the twelve day counts of a year add up to 366 in a leap year and to
    365 otherwise. *)
Theorem days_of_year_365_or_366 (year : Z) :
  days_of_year year = (if Gregorian.leap year then 366 else 365)
  /\ days_of_year year = 337 + number_of_days year 2.
Proof.
  assert (H : days_of_year year = 337 + number_of_days year 2).
  { unfold days_of_year. cbn [map fold_right].
    change (number_of_days year 1) with 31.
    change (number_of_days year 3) with 31.
    change (number_of_days year 4) with 30.
    change (number_of_days year 5) with 31.
    change (number_of_days year 6) with 30.
    change (number_of_days year 7) with 31.
    change (number_of_days year 8) with 31.
    change (number_of_days year 9) with 30.
    change (number_of_days year 10) with 31.
    change (number_of_days year 11) with 30.
    change (number_of_days year 12) with 31.
    lia. }
  split; [|exact H]. rewrite H, february.
  destruct (Gregorian.leap year); reflexivity.
Qed.

(** ** The buzzer and the firing protocol *)

(** X4: for a positive frequency, [buzz] lasts at most one period of the
    tone and falls short of it by less than two microseconds (each half
    period is rounded down); it takes no time at all exactly when the
    frequency exceeds 500 kHz. *)
Theorem buzz_is_one_period (freq : Z) :
  0 < freq ->
  buzz freq * freq <= 1000000 < (buzz freq + 2) * freq
  /\ (buzz freq = 0 <-> 500000 < freq).
Proof.
  intros Hpos. unfold buzz.
  replace (freq =? 0) with false by (symmetry; apply Z.eqb_neq; lia).
  pose proof (Z.div_mod 500000 freq ltac:(lia)) as Hdm.
  pose proof (Z.mod_pos_bound 500000 freq Hpos) as Hr.
  set (q := 500000 / freq) in *. set (r := 500000 mod freq) in *.
  assert (Hq : 0 <= q) by (apply Z.div_pos; lia).
  split; [nia|]. split.
  - intros H0. assert (q = 0) by lia. nia.
  - intros Hbig. assert (q = 0) by (apply Z.div_small; lia). lia.
Qed.

Lemma buzz_is_one_period_witness :
  0 < BUZZER_FREQ
  /\ buzz BUZZER_FREQ * BUZZER_FREQ <= 1000000
       < (buzz BUZZER_FREQ + 2) * BUZZER_FREQ.
Proof.
  assert (H : 0 < BUZZER_FREQ) by reflexivity.
  split; [exact H|]. apply (buzz_is_one_period BUZZER_FREQ H).
Defined.

(** X5: when the clock does not wrap before the deadline, never runs
    backwards, and every buzz of the handler puts at least its 2144
    microseconds between a test and the next one, the handler clears the
    firing flag after at most 27986 buzzes, whatever the select button
    does and however much longer the passes take. *)
Theorem firing_buzzes_bounded (fuel : nat) (select : nat -> bool)
    (clock : nat -> Z) (start : Z) (s : State) :
  0 <= start <= clock O ->
  start + MAX_ALARM_TIME_SEC * 1000000 < 18446744073709551616 ->
  (forall k, clock k <= clock (S k)) ->
  (forall k, clock k < alarm_end start ->
     buzz_while fuel false select clock (alarm_end start) O <> Some k ->
     clock k + buzz BUZZER_FREQ <= clock (S k)) ->
  27986 <= Z.of_nat fuel ->
  exists n s',
    alarm_callback fuel select clock start s = Some (n, s')
    /\ alarm_fired s' = false
    /\ Z.of_nat (buzzes n) <= 27986.
Proof.
  intros [H0 Hc0] Hmax Hmono Hsp Hfuel.
  pose proof (alarm_end_id start H0 Hmax) as Hend.
  set (end_ := alarm_end start) in *.
  assert (Hsp1 : forall j, (O <= j)%nat -> select j = false ->
            clock j < end_ -> clock j + buzz BUZZER_FREQ <= clock (S j)).
  { intros j _ Hs Hlt. apply Hsp; [exact Hlt|]. intros Hj.
    destruct (buzz_while_exit _ _ _ _ _ _ _ Hj) as (_ & _ & [Hne | Hge]);
      [exact (Hne Hs) | lia]. }
  destruct (buzz_while_total false select clock end_ fuel O Hsp1) as [n1 Hn1].
  { rewrite buzz_period. lia. }
  destruct (buzz_while_count _ _ _ _ _ _ _ Hn1 Hsp1) as [Hat1 Hin1].
  rewrite buzz_period, Nat.sub_0_r in Hat1.
  rewrite buzz_period in Hin1.
  assert (Hb1 : Z.of_nat n1 <= 27986).
  { destruct Hin1 as [-> | Hlt]; [lia|].
    replace (n1 - 0 - 1)%nat with (n1 - 1)%nat in Hlt by lia. lia. }
  assert (Hsp2 : forall j, (S n1 <= j)%nat -> select j = true ->
            clock j < end_ -> clock j + buzz BUZZER_FREQ <= clock (S j)).
  { intros j Hj _ Hlt. apply Hsp; [exact Hlt|]. rewrite Hn1.
    intros Heq. inversion Heq. lia. }
  pose proof (Hmono n1) as Hnext.
  destruct (buzz_while_total true select clock end_ fuel (S n1) Hsp2)
    as [n Hn].
  { rewrite buzz_period. lia. }
  destruct (buzz_while_count _ _ _ _ _ _ _ Hn Hsp2) as [_ Hin2].
  rewrite buzz_period in Hin2.
  destruct (buzz_while_exit _ _ _ _ _ _ _ Hn) as (Hle & _ & _).
  exists n. eexists. unfold alarm_callback, alarm_cleared_at. cbv zeta.
  fold end_. rewrite Hn1, Hn.
  split; [reflexivity|]. split; [reflexivity|].
  unfold buzzes. destruct Hin2 as [-> | Hlt]; lia.
Qed.

(** X6: when the select button shows the same level at every test, never
    pressed or held down throughout, the handler gives up at the deadline
    and not before: the last test at which the firing flag is set is the
    first one (the very first apart, when the button is held) that reads
    the clock at or past [end]; so the firing lasts the 60 seconds at
    least, whatever the pace of the tests. *)
Theorem firing_times_out (fuel : nat) (select : nat -> bool)
    (clock : nat -> Z) (start : Z) (level : bool) (m : nat) :
  (forall k, select k = level) ->
  (1 <= m <= fuel)%nat ->
  alarm_end start <= clock m ->
  exists n k,
    alarm_cleared_at fuel select clock start = Some n
    /\ (k <= n <= S m)%nat
    /\ firing_at fuel select clock start k = true
    /\ alarm_end start <= clock k
    /\ (forall j, (1 <= j < k)%nat -> clock j < alarm_end start)
    /\ (0 <= start ->
        start + MAX_ALARM_TIME_SEC * 1000000 < 18446744073709551616 ->
        start + MAX_ALARM_TIME_SEC * 1000000 <= clock k).
Proof.
  intros Hlevel [Hm1 Hmf] Hpast.
  set (end_ := alarm_end start) in *.
  assert (Hshape : exists n k,
            alarm_cleared_at fuel select clock start = Some n
            /\ (k <= n <= S m)%nat
            /\ end_ <= clock k
            /\ (forall j, (1 <= j < k)%nat -> clock j < end_)).
  { unfold alarm_cleared_at. cbv zeta. fold end_. destruct level.
    - rewrite (buzz_while_at false select clock end_ fuel O O);
        [|lia|lia|intros j Hj; lia|left; rewrite Hlevel; discriminate].
      destruct (buzz_while_leaves true select clock end_ m fuel 1%nat)
        as (n & Hn & Hle); [lia|lia|right; exact Hpast|].
      destruct (buzz_while_exit _ _ _ _ _ _ _ Hn) as (Hk & Hin & Hout).
      exists n, n. split; [exact Hn|]. split; [lia|]. split.
      + destruct Hout as [Hne | Hge]; [|exact Hge].
        exfalso. apply Hne, Hlevel.
      + intros j Hj. apply Hin. lia.
    - destruct (buzz_while_leaves false select clock end_ m fuel O)
        as (n1 & Hn1 & Hle); [lia|lia|right; exact Hpast|].
      destruct (buzz_while_exit _ _ _ _ _ _ _ Hn1) as (_ & Hin & Hout).
      rewrite Hn1.
      rewrite (buzz_while_at true select clock end_ fuel (S n1) (S n1));
        [|lia|lia|intros j Hj; lia|left; rewrite Hlevel; discriminate].
      exists (S n1), n1. split; [reflexivity|]. split; [lia|]. split.
      + destruct Hout as [Hne | Hge]; [|exact Hge].
        exfalso. apply Hne, Hlevel.
      + intros j Hj. apply Hin. lia. }
  destruct Hshape as (n & k & Hn & Hkn & Hge & Hbefore).
  exists n, k. split; [exact Hn|]. split; [exact Hkn|].
  split; [unfold firing_at; rewrite Hn; apply Nat.leb_le; lia|].
  split; [exact Hge|]. split; [exact Hbefore|].
  intros H0 Hmax. unfold end_ in Hge.
  rewrite (alarm_end_id start H0 Hmax) in Hge.
  unfold MAX_ALARM_TIME_SEC. lia.
Qed.

(** X23: an acknowledgement in time ends the firing.  When the select
    button is found released up to test [a], pressed from there up to test
    [b] and released at test [b], every test before [b] reading the clock
    before the deadline, the handler makes test [b] its last: the firing
    flag is set at every test up to [b] and clear afterwards, and the
    handler leaves the flag clear and the flicker counter at 0. *)
Theorem acknowledged_firing_ends (fuel : nat) (select : nat -> bool)
    (clock : nat -> Z) (start : Z) (a b : nat) (s : State) :
  (a < b <= fuel)%nat ->
  (forall k, (k < a)%nat -> select k = false) ->
  (forall k, (a <= k < b)%nat -> select k = true) ->
  select b = false ->
  (forall k, (k < b)%nat -> clock k < alarm_end start) ->
  alarm_callback fuel select clock start s
  = Some (b, with_alarm_count 0 (with_alarm_fired false (alarm_firing s)))
  /\ alarm_fired (alarm_firing s) = true
  /\ (forall k, (k <= b)%nat -> firing_at fuel select clock start k = true)
  /\ (forall k, (b < k)%nat -> firing_at fuel select clock start k = false).
Proof.
  intros [Hab Hfuel] Hlow Hhigh Hrel Hin.
  pose proof (alarm_cleared_at_edge fuel select clock start a b Hab Hfuel
                Hlow Hhigh Hrel Hin) as Hc.
  unfold alarm_callback, firing_at. rewrite Hc.
  split; [reflexivity|]. split; [reflexivity|]. split.
  - intros k Hk. apply Nat.leb_le. exact Hk.
  - intros k Hk. apply Nat.leb_gt. exact Hk.
Qed.

Lemma firing_buzzes_bounded_witness :
  0 <= fired_at_one_hour <= paced_clock 2150 (fired_at_one_hour + 1) O
  /\ 27986 <= Z.of_nat fuel_30000
  /\ exists n s',
       alarm_callback fuel_30000 pressed_at_tests_3_to_9
         (paced_clock 2150 (fired_at_one_hour + 1)) fired_at_one_hour
         initial_state = Some (n, s')
       /\ alarm_fired s' = false
       /\ Z.of_nat (buzzes n) <= 27986.
Proof.
  assert (H0 : 0 <= fired_at_one_hour
               <= paced_clock 2150 (fired_at_one_hour + 1) O)
    by (unfold paced_clock, fired_at_one_hour; lia).
  assert (Hfuel : 27986 <= Z.of_nat fuel_30000)
    by (unfold fuel_30000; lia).
  split; [exact H0|]. split; [exact Hfuel|].
  apply (firing_buzzes_bounded fuel_30000 pressed_at_tests_3_to_9
           (paced_clock 2150 (fired_at_one_hour + 1)) fired_at_one_hour
           initial_state H0).
  - reflexivity.
  - intros k. unfold paced_clock. lia.
  - intros k _ _. unfold paced_clock. rewrite buzz_period. lia.
  - exact Hfuel.
Defined.

Lemma firing_times_out_witness :
  (forall k, never_pressed k = false)
  /\ alarm_end fired_at_one_hour
     <= paced_clock 2150 (fired_at_one_hour + 1) (Z.to_nat 27907)
  /\ exists n k,
       alarm_cleared_at fuel_30000 never_pressed
         (paced_clock 2150 (fired_at_one_hour + 1)) fired_at_one_hour
       = Some n
       /\ (k <= n <= S (Z.to_nat 27907))%nat
       /\ firing_at fuel_30000 never_pressed
            (paced_clock 2150 (fired_at_one_hour + 1)) fired_at_one_hour k
          = true
       /\ alarm_end fired_at_one_hour
          <= paced_clock 2150 (fired_at_one_hour + 1) k.
Proof.
  assert (Hl : forall k, never_pressed k = false) by (intros k; reflexivity).
  assert (Hpast : alarm_end fired_at_one_hour
                  <= paced_clock 2150 (fired_at_one_hour + 1)
                       (Z.to_nat 27907)).
  { change (alarm_end fired_at_one_hour) with 3660000000.
    unfold paced_clock, fired_at_one_hour. lia. }
  split; [exact Hl|]. split; [exact Hpast|].
  destruct (firing_times_out fuel_30000 never_pressed
              (paced_clock 2150 (fired_at_one_hour + 1)) fired_at_one_hour
              false (Z.to_nat 27907) Hl
              ltac:(unfold fuel_30000; lia) Hpast)
    as (n & k & Hn & Hkn & Hf & Hge & _).
  exists n, k. split; [exact Hn|]. split; [exact Hkn|].
  split; [exact Hf|exact Hge].
Defined.

Lemma acknowledged_firing_ends_witness :
  (3 < 10 <= fuel_30000)%nat
  /\ pressed_at_tests_3_to_9 10 = false
  /\ alarm_callback fuel_30000 pressed_at_tests_3_to_9
       (paced_clock 2150 (fired_at_one_hour + 1)) fired_at_one_hour
       initial_state
     = Some (10%nat,
             with_alarm_count 0
               (with_alarm_fired false (alarm_firing initial_state)))
  /\ firing_at fuel_30000 pressed_at_tests_3_to_9
       (paced_clock 2150 (fired_at_one_hour + 1)) fired_at_one_hour 10
     = true
  /\ firing_at fuel_30000 pressed_at_tests_3_to_9
       (paced_clock 2150 (fired_at_one_hour + 1)) fired_at_one_hour 11
     = false.
Proof.
  assert (Hab : (3 < 10 <= fuel_30000)%nat) by (unfold fuel_30000; lia).
  assert (Hlow : forall k, (k < 3)%nat -> pressed_at_tests_3_to_9 k = false).
  { intros k Hk. unfold pressed_at_tests_3_to_9.
    apply andb_false_intro1. apply Nat.leb_gt. exact Hk. }
  assert (Hhigh : forall k, (3 <= k < 10)%nat ->
            pressed_at_tests_3_to_9 k = true).
  { intros k Hk. unfold pressed_at_tests_3_to_9.
    apply andb_true_intro. split; apply Nat.leb_le; lia. }
  assert (Hin : forall k, (k < 10)%nat ->
            paced_clock 2150 (fired_at_one_hour + 1) k
            < alarm_end fired_at_one_hour).
  { intros k Hk. change (alarm_end fired_at_one_hour) with 3660000000.
    unfold paced_clock, fired_at_one_hour. lia. }
  destruct (acknowledged_firing_ends fuel_30000 pressed_at_tests_3_to_9
              (paced_clock 2150 (fired_at_one_hour + 1)) fired_at_one_hour
              3 10 initial_state Hab Hlow Hhigh eq_refl Hin)
    as (Hcb & _ & Hset & Hclear).
  split; [exact Hab|]. split; [reflexivity|]. split; [exact Hcb|].
  split; [apply Hset; lia | apply Hclear; lia].
Defined.

(** ** Wizard fields, leftwards *)

Lemma dec_wrap_descend conv lo hi :
  (forall z, lo <= z <= hi -> conv z = z) ->
  forall k v, v <= hi -> lo <= v - Z.of_nat k ->
  Nat.iter k (dec_wrap conv lo hi) v = v - Z.of_nat k.
Proof.
  intros Hconv. induction k as [|k IH]; intros v Hhi Hlo.
  - cbn. lia.
  - rewrite Nat.iter_succ, IH by lia. unfold dec_wrap.
    destruct (_ =? lo) eqn:E; [lia|]. rewrite Hconv; lia.
Qed.

Lemma dec_wrap_cycle conv lo hi v :
  (forall z, lo <= z <= hi -> conv z = z) ->
  lo <= v <= hi ->
  Nat.iter (Z.to_nat (hi - lo + 1)) (dec_wrap conv lo hi) v = v.
Proof.
  intros Hconv Hv.
  replace (Z.to_nat (hi - lo + 1))
    with (Z.to_nat (hi - v) + (1 + Z.to_nat (v - lo)))%nat by lia.
  rewrite Nat.iter_add. cbn [Nat.add]. rewrite Nat.iter_succ.
  rewrite (dec_wrap_descend conv lo hi Hconv (Z.to_nat (v - lo)) v) by lia.
  replace (v - Z.of_nat (Z.to_nat (v - lo))) with lo by lia.
  replace (dec_wrap conv lo hi lo) with hi
    by (unfold dec_wrap; rewrite Z.eqb_refl; reflexivity).
  rewrite (dec_wrap_descend conv lo hi Hconv) by lia. lia.
Qed.

Lemma dec_inc_wrap conv lo hi v :
  (forall z, lo <= z <= hi -> conv z = z) -> lo <= v <= hi ->
  dec_wrap conv lo hi (inc_wrap conv hi lo v) = v
  /\ inc_wrap conv hi lo (dec_wrap conv lo hi v) = v.
Proof.
  intros Hconv Hv. unfold dec_wrap, inc_wrap. split.
  - destruct (v =? hi) eqn:E.
    + rewrite Z.eqb_refl. lia.
    + rewrite (Hconv (v + 1)) by lia.
      destruct (v + 1 =? lo) eqn:E'; [lia|]. rewrite Hconv; lia.
  - destruct (v =? lo) eqn:E.
    + rewrite Z.eqb_refl. lia.
    + rewrite (Hconv (v - 1)) by lia.
      destruct (v - 1 =? hi) eqn:E'; [lia|]. rewrite Hconv; lia.
Qed.

Lemma current_mode_put_field w s :
  current_mode (put_field w s) = current_mode s.
Proof.
  unfold put_field. destruct s as [? ? ? m ? ? ? ? ? ? ? ?]. cbn.
  destruct m; reflexivity.
Qed.

Section Leftwards.

Variable rtc_set_datetime : datetime_t -> bool.

Lemma left_passes i n : forall s lo hi v,
  goes_left i -> field_span s = Some (lo, hi, v) ->
  Nat.iter n (core1_step rtc_set_datetime i) s
  = put_field
      (Nat.iter n (dec_wrap (field_conv (current_mode s)) lo hi) v) s.
Proof.
  induction n as [|n IH]; intros s lo hi v Hl Hf.
  - cbn. symmetry. eapply put_field_same; eassumption.
  - rewrite Nat.iter_succ, (IH s lo hi v Hl Hf).
    set (w := Nat.iter n _ v).
    rewrite (left_pass rtc_set_datetime i _ lo hi w Hl
               (field_span_put s lo hi v w Hf)).
    rewrite put_field_put, current_mode_put_field. reflexivity.
Qed.

(** X7: in every wizard field, pressing Left as many times as the field has
    values brings an in-range field, and all the globals, back to where
    they were. *)
Theorem left_presses_cycle (i : Input) (s : State) (lo hi v : Z) :
  goes_left i ->
  field_span s = Some (lo, hi, v) ->
  lo <= v <= hi ->
  Nat.iter (Z.to_nat (hi - lo + 1)) (core1_step rtc_set_datetime i) s = s.
Proof.
  intros Hl Hf Hv.
  rewrite (left_passes i _ s lo hi v Hl Hf).
  rewrite dec_wrap_cycle.
  - eapply put_field_same; eassumption.
  - intros z Hz. eapply field_conv_id; eassumption.
  - exact Hv.
Qed.

(** X8: in every wizard field holding an in-range value, Left undoes Right
    and Right undoes Left. *)
Theorem left_and_right_are_inverse (l r : Input) (s : State) (lo hi v : Z) :
  goes_left l -> goes_right r ->
  field_span s = Some (lo, hi, v) ->
  lo <= v <= hi ->
  core1_step rtc_set_datetime l (core1_step rtc_set_datetime r s) = s
  /\ core1_step rtc_set_datetime r (core1_step rtc_set_datetime l s) = s.
Proof.
  intros Hl Hr Hf Hv.
  assert (Hconv : forall z, lo <= z <= hi ->
                    field_conv (current_mode s) z = z)
    by (intros z Hz; eapply field_conv_id; eassumption).
  destruct (dec_inc_wrap _ lo hi v Hconv Hv) as [Hdi Hid].
  split.
  - rewrite (right_pass rtc_set_datetime r s lo hi v Hr Hf).
    rewrite (left_pass rtc_set_datetime l _ lo hi _ Hl
               (field_span_put s lo hi v _ Hf)).
    rewrite put_field_put, current_mode_put_field, Hdi.
    eapply put_field_same; eassumption.
  - rewrite (left_pass rtc_set_datetime l s lo hi v Hl Hf).
    rewrite (right_pass rtc_set_datetime r _ lo hi _ Hr
               (field_span_put s lo hi v _ Hf)).
    rewrite put_field_put, current_mode_put_field, Hid.
    eapply put_field_same; eassumption.
Qed.

End Leftwards.

Lemma left_presses_cycle_witness :
  goes_left (press press_left)
  /\ field_span wizard_entry = Some (0, 4095, 2023)
  /\ Nat.iter (Z.to_nat (4095 - 0 + 1))
       (core1_step fields_in_range (press press_left)) wizard_entry
     = wizard_entry.
Proof.
  assert (Hl : goes_left (press press_left)) by reflexivity.
  split; [exact Hl|]. split; [reflexivity|].
  apply (left_presses_cycle fields_in_range (press press_left)
           wizard_entry 0 4095 2023 Hl eq_refl).
  lia.
Defined.

Lemma left_and_right_are_inverse_witness :
  goes_left (press press_left) /\ goes_right (press press_right)
  /\ field_span day_field_entered = Some (1, 28, 28)
  /\ core1_step fields_in_range (press press_left)
       (core1_step fields_in_range (press press_right) day_field_entered)
     = day_field_entered.
Proof.
  assert (Hl : goes_left (press press_left)) by reflexivity.
  assert (Hr : goes_right (press press_right)) by (split; reflexivity).
  split; [exact Hl|]. split; [exact Hr|]. split; [reflexivity|].
  apply (left_and_right_are_inverse fields_in_range (press press_left)
           (press press_right) day_field_entered 1 28 28 Hl Hr eq_refl).
  lia.
Defined.

(** ** What every reachable state satisfies *)

(** Reduces the reads of globals out of the updated states. *)
Ltac globals_cbn :=
  cbn [datetime_set alarm_enabled alarm_fired current_mode menu_index
       alarm_count sleep_mode_count alarm_settime set_date alarmtime date
       rtc_calls with_current_mode with_menu_index with_alarm_settime
       with_alarmtime with_alarm_enabled with_alarm_fired with_alarm_count
       with_sleep_mode_count with_datetime_set with_set_date with_date
       log_call edit_set_date edit_alarm_settime] in *.

Section Invariants.

Variable rtc_set_datetime : datetime_t -> bool.

Lemma menu_cursor_ok_pass i s :
  menu_cursor_ok s -> menu_cursor_ok (core1_step rtc_set_datetime i s).
Proof.
  unfold menu_cursor_ok. intros H.
  by_mode_and_buttons s i; cbn [current_mode menu_index] in H;
    unfold dec_wrap, inc_wrap;
    repeat match goal with
           | |- context [if ?c then _ else _] => destruct c eqn:?
           end;
    unfold rtc_get_datetime;
    try (destruct now);
    cbn in *; rewrite ?uint8_id by lia; lia.
Qed.

Lemma sleep_mode_count_frame i s :
  current_mode s <> CLOCK ->
  sleep_mode_count (core1_step rtc_set_datetime i s) = sleep_mode_count s.
Proof.
  intros H.
  by_mode_and_buttons s i; try (exfalso; apply H; reflexivity);
    repeat match goal with
           | |- context [if ?c then _ else _] => destruct c
           end;
    unfold rtc_get_datetime; try (destruct now); reflexivity.
Qed.

Lemma idle_counter_ok_pass i s :
  idle_counter_ok s -> idle_counter_ok (core1_step rtc_set_datetime i s).
Proof.
  unfold idle_counter_ok. intros [Hc Hm].
  destruct (current_mode s) eqn:Hmode;
    try (rewrite sleep_mode_count_frame by (rewrite Hmode; discriminate);
         specialize (Hm ltac:(discriminate)); split; [lia | intros _; lia]).
  destruct (back_button (buttons i)) eqn:Hb.
  - rewrite (clock_pass_back rtc_set_datetime i s Hmode Hb). cbn.
    split; [lia | intros _; lia].
  - rewrite (clock_pass_idle rtc_set_datetime i s Hmode Hb) by lia.
    destruct (sleep_mode_count s + 1 =? 500) eqn:E; cbn.
    + split; [lia | intros _; lia].
    + split; [lia|]. rewrite Hmode. intros Hne. exfalso. apply Hne.
      reflexivity.
Qed.

Lemma alarm_armed_ok_pass i s :
  alarm_armed_ok s -> alarm_armed_ok (core1_step rtc_set_datetime i s).
Proof.
  unfold alarm_armed_ok. intros H.
  by_mode_and_buttons s i; cbn [rtc_calls alarm_enabled alarmtime] in H;
    unfold rtc_get_datetime; try (destruct now);
    globals_cbn;
    repeat (match goal with
            | |- context [if ?c then _ else _] => destruct c eqn:?
            end; globals_cbn);
    cbn [rtc_alarm_of negb] in *; try discriminate;
    first [exact H | reflexivity].
Qed.

Lemma alarm_times_ok_pass i s :
  alarm_times_ok s -> alarm_times_ok (core1_step rtc_set_datetime i s).
Proof.
  unfold alarm_times_ok. intros [Ha Hd].
  by_mode_and_buttons s i;
    cbn [current_mode alarmtime alarm_settime edits_alarm_draft] in Ha, Hd;
    try specialize (Hd eq_refl);
    unfold rtc_get_datetime; try (destruct now);
    globals_cbn;
    repeat (match goal with
            | |- context [if ?c then _ else _] => destruct c eqn:?
            end; globals_cbn);
    cbn [edits_alarm_draft];
    (split; [assumption | intros Hedit; try discriminate Hedit;
                          try assumption]);
    destruct Hd as (Hy & Hmo & Hdy & Hw & Hh & Hmi & Hs);
    pose proof (dec_wrap_range Int.int8 0 23 _
                  (int8_small 0 23 ltac:(lia) ltac:(lia)) Hh);
    pose proof (inc_wrap_range Int.int8 23 0 _
                  (int8_small 0 23 ltac:(lia) ltac:(lia)) Hh);
    pose proof (dec_wrap_range Int.int8 0 59 _
                  (int8_small 0 59 ltac:(lia) ltac:(lia)) Hmi);
    pose proof (inc_wrap_range Int.int8 59 0 _
                  (int8_small 0 59 ltac:(lia) ltac:(lia)) Hmi);
    pose proof (dec_wrap_range Int.int8 0 59 _
                  (int8_small 0 59 ltac:(lia) ltac:(lia)) Hs);
    pose proof (inc_wrap_range Int.int8 59 0 _
                  (int8_small 0 59 ltac:(lia) ltac:(lia)) Hs);
    unfold alarm_time_ok, with_hour, with_min, with_sec;
    cbn [year month day dotw hour min sec];
    repeat match goal with |- _ /\ _ => split end; lia.
Qed.

Lemma core1_step_frame i s :
  alarm_fired (core1_step rtc_set_datetime i s) = alarm_fired s
  /\ alarm_count (core1_step rtc_set_datetime i s) = alarm_count s
  /\ date (core1_step rtc_set_datetime i s) = date s.
Proof.
  by_mode_and_buttons s i;
    repeat match goal with
           | |- context [if ?c then _ else _] => destruct c
           end;
    unfold rtc_get_datetime; try (destruct now); repeat split.
Qed.

(** The four things a pass of the display loop does to the globals. *)
Lemma main_step_cases j s s' f :
  main_step j s = Some (s', f) ->
  s' = s
  \/ (alarm_fired s = true /\ alarm_count s < 8
      /\ s' = with_alarm_count (Int.uint8 (alarm_count s + 1)) s)
  \/ (alarm_fired s = true /\ s' = with_alarm_count 0 s)
  \/ s' = rtc_get_datetime (rtc_now j) with_date s.
Proof.
  unfold main_step. intros H.
  destruct (alarm_fired s) eqn:Hf.
  - destruct (alarm_count s <? 8) eqn:Hc; inversion H; subst.
    + right. left. repeat split. apply Z.ltb_lt. exact Hc.
    + right. right. left. split; reflexivity.
  - repeat match type of H with
           | context [if ?c then _ else _] => destruct c
           | context [match ?c with _ => _ end] => destruct c
           end;
      inversion H; subst; auto.
Qed.

Lemma main_step_count j s s' f :
  main_step j s = Some (s', f) ->
  0 <= alarm_count s <= 8 -> 0 <= alarm_count s' <= 8.
Proof.
  intros Hstep Hc.
  destruct (main_step_cases j s s' f Hstep)
    as [-> | [(_ & Hlt & ->) | [(_ & ->) | ->]]].
  - exact Hc.
  - cbn [alarm_count with_alarm_count]. rewrite uint8_id by lia. lia.
  - cbn. lia.
  - unfold rtc_get_datetime. destruct (rtc_now j); exact Hc.
Qed.

Lemma reachable_invariants s :
  Reachable rtc_set_datetime s ->
  menu_cursor_ok s /\ idle_counter_ok s /\ alarm_armed_ok s
  /\ alarm_times_ok s /\ 0 <= alarm_count s <= 8.
Proof.
  induction 1 as [|i s Hs IH|j s s' f Hs IH Hstep
                  |j s0 s0' f s Hs0 IH0 Hstep Hs IH|j s Hs IH|s Hs IH
                  |s Hs IH|s Hs IH|fuel select clock start s n s' Hs IH Hcb].
  - repeat split; try (cbn; lia); try discriminate.
  - destruct IH as (Hm & Hi & Ha & Ht & Hc).
    destruct (core1_step_frame i s) as (Hfired & Hcount & _).
    split; [apply menu_cursor_ok_pass, Hm|].
    split; [apply idle_counter_ok_pass, Hi|].
    split; [apply alarm_armed_ok_pass, Ha|].
    split; [apply alarm_times_ok_pass, Ht|].
    rewrite Hcount. exact Hc.
  - destruct IH as (Hm & Hi & Ha & Ht & Hc).
    pose proof (main_step_count j s s' f Hstep Hc) as Hc'.
    destruct (main_step_cases j s s' f Hstep)
      as [-> | [(_ & _ & ->) | [(_ & ->) | ->]]];
      try (split; [exact Hm|]; split; [exact Hi|]; split; [exact Ha|];
           split; [exact Ht|exact Hc']).
    unfold rtc_get_datetime in *. destruct (rtc_now j);
      (split; [exact Hm|]; split; [exact Hi|]; split; [exact Ha|];
       split; [exact Ht|exact Hc']).
  - destruct IH0 as (_ & _ & _ & _ & Hc0).
    destruct IH as (Hm & Hi & Ha & Ht & _).
    split; [exact Hm|]. split; [exact Hi|]. split; [exact Ha|].
    split; [exact Ht|].
    exact (main_step_count j s0 s0' f Hstep Hc0).
  - destruct IH as (Hm & Hi & Ha & Ht & Hc).
    unfold rtc_get_datetime. destruct (rtc_now j);
      (split; [exact Hm|]; split; [exact Hi|]; split; [exact Ha|];
       split; [exact Ht|exact Hc]).
  - exact IH.
  - exact IH.
  - destruct IH as (Hm & Hi & Ha & Ht & Hc).
    split; [exact Hm|]. split; [exact Hi|]. split; [exact Ha|].
    split; [exact Ht|]. cbn. lia.
  - destruct IH as (Hm & Hi & Ha & Ht & Hc).
    unfold alarm_callback in Hcb.
    destruct (alarm_cleared_at fuel select clock start);
      inversion Hcb; subst.
    split; [exact Hm|]. split; [exact Hi|]. split; [exact Ha|].
    split; [exact Ht|]. cbn. lia.
Qed.

Lemma reachable_core1_main inputs : forall s,
  Reachable rtc_set_datetime s ->
  Reachable rtc_set_datetime (core1_main rtc_set_datetime inputs s).
Proof.
  induction inputs as [|i rest IH]; intros s Hs; [exact Hs|].
  cbn [core1_main]. apply IH. apply reach_core1. exact Hs.
Qed.


(** X10: in every reachable state the idle counter is in 0..499, so the
    16-bit counter never wraps, and it is at most 1 outside [CLOCK]. *)
Theorem idle_counter_below_threshold (s : State) :
  Reachable rtc_set_datetime s ->
  0 <= sleep_mode_count s < SLEEP_MODE_ACTIVATION_TIME_MS / WAIT_DURATION_MS
  /\ (current_mode s <> CLOCK -> sleep_mode_count s <= 1).
Proof.
  intros Hs. destruct (reachable_invariants s Hs) as (_ & Hi & _).
  rewrite threshold_500. exact Hi.
Qed.




End Invariants.



Lemma armed_and_idle_reachable :
  Reachable fields_in_range armed_and_idle.
Proof.
  assert (Hrun : core1_main fields_in_range armed_inputs initial_state
                 = armed_and_idle) by (vm_compute; reflexivity).
  rewrite <- Hrun. apply reachable_core1_main. apply reach_power_up.
Qed.


Lemma idle_counter_below_threshold_witness :
  Reachable fields_in_range armed_and_idle
  /\ current_mode armed_and_idle = CLOCK
  /\ sleep_mode_count armed_and_idle = 42
  /\ 0 <= sleep_mode_count armed_and_idle
       < SLEEP_MODE_ACTIVATION_TIME_MS / WAIT_DURATION_MS.
Proof.
  split; [exact armed_and_idle_reachable|].
  split; [reflexivity|]. split; [reflexivity|].
  exact (proj1 (idle_counter_below_threshold fields_in_range armed_and_idle
                  armed_and_idle_reachable)).
Defined.




(** ** The display loop *)

Lemma main_step_alarm_shown j s :
  alarm_fired s = true -> 0 <= alarm_count s < 8 ->
  main_step j s
  = Some (with_alarm_count (alarm_count s + 1) s, alarm_frame (alarmtime s)).
Proof.
  intros Hf Hc. unfold main_step. rewrite Hf.
  replace (alarm_count s <? 8) with true by (symmetry; apply Z.ltb_lt; lia).
  rewrite uint8_id by lia. reflexivity.
Qed.

Lemma main_step_alarm_blank j s :
  alarm_fired s = true -> 8 <= alarm_count s ->
  main_step j s = Some (with_alarm_count 0 s, []).
Proof.
  intros Hf Hc. unfold main_step. rewrite Hf.
  replace (alarm_count s <? 8) with false by (symmetry; apply Z.ltb_ge; lia).
  reflexivity.
Qed.

Lemma main_frames_app a : forall b s s1 fa,
  main_frames a s = Some (s1, fa) ->
  main_frames (a ++ b) s
  = match main_frames b s1 with
    | Some (s2, fb) => Some (s2, fa ++ fb)
    | None => None
    end.
Proof.
  induction a as [|j a IH]; intros b s s1 fa H.
  - cbn in H. inversion H; subst. cbn.
    destruct (main_frames b s1) as [[s2 fb]|]; reflexivity.
  - cbn [main_frames app] in *.
    destruct (main_step j s) as [[s' f]|]; [|discriminate].
    destruct (main_frames a s') as [[s'' fs]|] eqn:Ha; [|discriminate].
    inversion H; subst.
    rewrite (IH b s' s1 fs Ha).
    destruct (main_frames b s1) as [[s2 fb]|]; reflexivity.
Qed.

Lemma alarm_frames_shown inputs : forall s,
  alarm_fired s = true -> 0 <= alarm_count s ->
  alarm_count s + Z.of_nat (List.length inputs) <= 8 ->
  main_frames inputs s
  = Some (with_alarm_count (alarm_count s + Z.of_nat (List.length inputs)) s,
          repeat (alarm_frame (alarmtime s)) (List.length inputs)).
Proof.
  induction inputs as [|j rest IH]; intros s Hf H0 Hle.
  - cbn. rewrite Z.add_0_r. destruct s; reflexivity.
  - cbn [List.length] in Hle. cbn [main_frames].
    rewrite main_step_alarm_shown by (assumption || lia).
    rewrite IH by (cbn; assumption || lia).
    cbn [List.length repeat]. rewrite Nat2Z.inj_succ.
    replace (alarm_count s + Z.succ (Z.of_nat (List.length rest)))
      with (alarm_count s + 1 + Z.of_nat (List.length rest)) by lia.
    destruct s; reflexivity.
Qed.

(** X14: while the alarm fires, the display flickers with a period of nine
    passes: from a flicker counter at 0, eight passes show the alarm screen
    with the stored alarm time, the ninth shows a blank display, and the
    counter is back at 0. *)
Theorem alarm_screen_flickers (inputs : list Input) (s : State) :
  alarm_fired s = true ->
  alarm_count s = 0 ->
  List.length inputs = 9%nat ->
  main_frames inputs s
  = Some (s, repeat (alarm_frame (alarmtime s)) 8 ++ [[]]).
Proof.
  intros Hf Hc Hlen.
  assert (Hsplit : exists shown j, inputs = shown ++ [j]
                                   /\ List.length shown = 8%nat).
  { destruct (exists_last (l := inputs)) as (shown & j & ->).
    - intros ->. discriminate Hlen.
    - exists shown, j. split; [reflexivity|].
      rewrite length_app in Hlen. cbn in Hlen. lia. }
  destruct Hsplit as (shown & j & -> & H8).
  rewrite (main_frames_app shown [j] s _ _
             (alarm_frames_shown shown s Hf ltac:(lia) ltac:(lia))).
  rewrite H8, Hc. cbn [main_frames].
  rewrite main_step_alarm_blank by (cbn; assumption || lia).
  destruct s; cbn in *. subst. reflexivity.
Qed.

Lemma alarm_screen_flickers_witness :
  alarm_fired (alarm_firing alarm_menu_on_set) = true
  /\ alarm_count (alarm_firing alarm_menu_on_set) = 0
  /\ main_frames (repeat (press no_buttons) 9) (alarm_firing alarm_menu_on_set)
     = Some (alarm_firing alarm_menu_on_set,
             repeat (alarm_frame initial_alarmtime) 8 ++ [[]]).
Proof.
  split; [reflexivity|]. split; [reflexivity|].
  apply (alarm_screen_flickers (repeat (press no_buttons) 9)
           (alarm_firing alarm_menu_on_set)); reflexivity.
Defined.

(** X15: a pass of the display loop leaves the control state alone: the
    mode, the cursor, both drafts, the stored alarm time, the flags and the
    idle counter are as before, and it neither arms or disarms the alarm
    nor sets the clock of the peripheral. *)
Theorem display_keeps_control_state (j : Input) (s s' : State) (f : Frame) :
  main_step j s = Some (s', f) ->
  current_mode s' = current_mode s
  /\ menu_index s' = menu_index s
  /\ set_date s' = set_date s
  /\ alarm_settime s' = alarm_settime s
  /\ alarmtime s' = alarmtime s
  /\ alarm_enabled s' = alarm_enabled s
  /\ alarm_fired s' = alarm_fired s
  /\ datetime_set s' = datetime_set s
  /\ sleep_mode_count s' = sleep_mode_count s
  /\ rtc_alarm_of (rtc_calls s') = rtc_alarm_of (rtc_calls s)
  /\ datetimes_set (rtc_calls s') = datetimes_set (rtc_calls s).
Proof.
  intros H.
  destruct (main_step_cases j s s' f H)
    as [-> | [(_ & _ & ->) | [(_ & ->) | ->]]];
    try (repeat split; reflexivity).
  unfold rtc_get_datetime. destruct (rtc_now j); repeat split; reflexivity.
Qed.

Lemma display_keeps_control_state_witness :
  exists s' f,
    main_step (press no_buttons) clock_shown = Some (s', f)
    /\ current_mode s' = CLOCK
    /\ date s' = rtc_date_example
    /\ set_date s' = set_date clock_shown.
Proof.
  eexists. eexists. split; [vm_compute; reflexivity|].
  split; [reflexivity|]. split; [reflexivity|].
  eapply (display_keeps_control_state (press no_buttons) clock_shown).
  vm_compute. reflexivity.
Defined.

Lemma index_none_iff {A : Type} (a : list A) (i : Z) :
  index a i = None <-> i < 0 \/ Z.of_nat (List.length a) <= i.
Proof.
  unfold index. destruct (i <? 0) eqn:E.
  - split; [intros _; left; lia | reflexivity].
  - rewrite nth_error_None. split; [intros H; right; lia | intros [H | H]; lia].
Qed.

Lemma clock_screen_none_iff d :
  clock_screen d = None
  <-> ~ (1 <= month d <= 12) \/ ~ (0 <= dotw d <= 6).
Proof.
  unfold clock_screen.
  destruct (index months (month d - 1)) eqn:Hm.
  - destruct (index weekdays (dotw d)) eqn:Hw.
    + destruct (index weekday_pixel_offset (dotw d)) eqn:Ho.
      * split; [discriminate|]. intros [Hb | Hb]; exfalso; apply Hb.
        -- destruct (Z_lt_le_dec (month d - 1) 0) as [Hl | Hl];
             [|destruct (Z_lt_le_dec (month d - 1) 12) as [Hu | Hu]];
             [| lia |];
             assert (Hn : index months (month d - 1) = None)
               by (apply index_none_iff; cbn; lia);
             rewrite Hn in Hm; discriminate.
        -- destruct (Z_lt_le_dec (dotw d) 0) as [Hl | Hl];
             [|destruct (Z_lt_le_dec (dotw d) 7) as [Hu | Hu]];
             [| lia |];
             assert (Hn : index weekdays (dotw d) = None)
               by (apply index_none_iff; cbn; lia);
             rewrite Hn in Hw; discriminate.
      * apply index_none_iff in Ho. cbn in Ho.
        split; [intros _; right; lia | reflexivity].
    + apply index_none_iff in Hw. cbn in Hw.
      split; [intros _; right; lia | reflexivity].
  - apply index_none_iff in Hm. cbn in Hm.
    split; [intros _; left; lia | reflexivity].
Qed.

(** X16: a pass of the display loop reads an array out of its bounds in
    three situations only, all with no alarm firing: the month field of the
    clock wizard with the draft's month outside 1..12, its weekday field
    with the draft's weekday outside 0..6, and [CLOCK] mode with a running
    peripheral that delivers a month or a weekday outside those ranges. *)
Theorem display_out_of_bounds_iff (j : Input) (s : State) :
  main_step j s = None
  <-> alarm_fired s = false
      /\ ((current_mode s = SET_CLOCK_MONTH
           /\ ~ (1 <= month (set_date s) <= 12))
          \/ (current_mode s = SET_CLOCK_WEEKDAY
              /\ ~ (0 <= dotw (set_date s) <= 6))
          \/ (current_mode s = CLOCK
              /\ exists d, rtc_now j = Some d
                           /\ (~ (1 <= month d <= 12)
                               \/ ~ (0 <= dotw d <= 6)))).
Proof.
  unfold main_step.
  destruct (alarm_fired s) eqn:Hf.
  - split.
    + destruct (alarm_count s <? 8); discriminate.
    + intros [Hfalse _]. discriminate Hfalse.
  - unfold mode_is, mode_between, set_clock_screen, rtc_get_datetime.
    destruct (current_mode s) eqn:Hm; cbn [mode_code Z.eqb Z.leb Z.compare
      Pos.eqb Pos.compare Pos.compare_cont andb];
      try (split; [discriminate|];
           intros [_ [[Hx _] | [[Hx _] | [Hx _]]]]; discriminate Hx).
    + (* CLOCK *)
      destruct (rtc_now j) as [d|] eqn:Hnow.
      * cbn [date with_date log_call].
        pose proof (clock_screen_none_iff d) as Hcs.
        destruct (clock_screen d) eqn:Hscreen.
        -- split; [discriminate|].
           intros [_ [[Hx _] | [[Hx _] | [_ (d' & Hd' & Hbad)]]]];
             try discriminate Hx.
           inversion Hd'; subst d'. apply Hcs in Hbad. discriminate Hbad.
        -- split; [|reflexivity]. intros _. split; [reflexivity|].
           right. right. split; [reflexivity|]. exists d.
           split; [reflexivity|]. apply Hcs. reflexivity.
      * split; [discriminate|].
        intros [_ [[Hx _] | [[Hx _] | [_ (d' & Hd' & _)]]]];
          discriminate.
    + (* SET_CLOCK_MONTH *)
      pose proof (index_none_iff months (month (set_date s) - 1)) as Hi.
      cbn [List.length months] in Hi.
      destruct (index months (month (set_date s) - 1)) eqn:Hidx.
      * split; [discriminate|].
        intros [_ [[_ Hbad] | [[Hx _] | [Hx _]]]]; try discriminate Hx.
        assert (Hnone : @None string = None) by reflexivity.
        exfalso. apply Hbad.
        destruct (Z_lt_le_dec (month (set_date s) - 1) 0) as [Hl | Hl];
          [|destruct (Z_lt_le_dec (month (set_date s) - 1) 12) as [Hu | Hu]];
          [| lia |];
          (assert (Hn : Some s0 = None) by (apply Hi; cbn; lia));
          discriminate Hn.
      * split; [|reflexivity]. intros _. split; [reflexivity|]. left.
        split; [reflexivity|]. destruct Hi as [Hi _].
        specialize (Hi eq_refl). cbn in Hi. lia.
    + (* SET_CLOCK_WEEKDAY *)
      pose proof (index_none_iff weekdays (dotw (set_date s))) as Hi.
      destruct (index weekdays (dotw (set_date s))) eqn:Hidx.
      * split; [discriminate|].
        intros [_ [[Hx _] | [[_ Hbad] | [Hx _]]]]; try discriminate Hx.
        exfalso. apply Hbad.
        destruct (Z_lt_le_dec (dotw (set_date s)) 0) as [Hl | Hl];
          [|destruct (Z_lt_le_dec (dotw (set_date s)) 7) as [Hu | Hu]];
          [| lia |];
          (assert (Hn : Some s0 = None) by (apply Hi; cbn; lia));
          discriminate Hn.
      * split; [|reflexivity]. intros _. split; [reflexivity|]. right. left.
        split; [reflexivity|]. destruct Hi as [Hi _].
        specialize (Hi eq_refl). cbn in Hi. lia.
Qed.

(** ** The control loop as a whole *)

Section ControlLoop.

Variable rtc_set_datetime : datetime_t -> bool.

(** X17: a pass of the control loop either stays in its mode or moves along
    one of the edges of the mode graph: the menus to their entries, each
    wizard field to the next or the previous one, [CLOCK] to [MENU] or
    [SLEEP_MODE], and [SLEEP_MODE] and the three confirmation screens to
    [CLOCK] only. *)
Theorem mode_moves_along_graph (i : Input) (s : State) :
  current_mode (core1_step rtc_set_datetime i s) = current_mode s
  \/ In (current_mode (core1_step rtc_set_datetime i s))
       (next_modes (current_mode s)).
Proof.
  by_mode_and_buttons s i;
    repeat match goal with
           | |- context [if ?c then _ else _] => destruct c
           end;
    unfold rtc_get_datetime; try (destruct now);
    cbn; auto 6.
Qed.

(** X18: the control loop hands a calendar value to [rtc_set_datetime] in
    one pass only, Select in the seconds field of the clock wizard, and
    then it is the draft; [datetime_set] is written by that pass alone and
    records the peripheral's answer. *)
Theorem clock_set_only_by_commit (i : Input) (s : State) :
  datetimes_set (rtc_calls (core1_step rtc_set_datetime i s))
  = (if commits_clock i s then set_date s :: datetimes_set (rtc_calls s)
     else datetimes_set (rtc_calls s))
  /\ datetime_set (core1_step rtc_set_datetime i s)
     = (if commits_clock i s then rtc_set_datetime (set_date s)
        else datetime_set s).
Proof.
  unfold commits_clock, mode_is.
  by_mode_and_buttons s i;
    unfold rtc_get_datetime; try (destruct now);
    globals_cbn;
    repeat (match goal with
            | |- context [if ?c then _ else _] => destruct c eqn:?
            end; globals_cbn);
    cbn in *; try discriminate; split; reflexivity.
Qed.

(** X19: outside [CLOCK] mode a pass that finds no button pressed changes
    nothing at all. *)
Theorem idle_pass_changes_nothing (i : Input) (s : State) :
  buttons i = no_buttons ->
  current_mode s <> CLOCK ->
  core1_step rtc_set_datetime i s = s.
Proof.
  intros Hb Hm. unfold core1_step, on_buttons. rewrite Hb. cbn.
  destruct (current_mode s); try reflexivity.
  exfalso. apply Hm. reflexivity.
Qed.

Lemma menu_select_wizard i s :
  current_mode s = MENU -> menu_index s = 1 -> selects i ->
  core1_step rtc_set_datetime i s
  = with_menu_index 0
      (rtc_get_datetime (rtc_now i) with_set_date
         (with_current_mode SET_CLOCK_YEAR s)).
Proof. intros Hm Hi Hs. pick_branch. rewrite Hi. reflexivity. Qed.

(** Select in the fields of the clock wizard that only move on. *)
Lemma field_select_pass i s next :
  selects i ->
  (current_mode s = SET_CLOCK_YEAR /\ next = SET_CLOCK_MONTH
   \/ current_mode s = SET_CLOCK_DAY /\ next = SET_CLOCK_WEEKDAY
   \/ current_mode s = SET_CLOCK_WEEKDAY /\ next = SET_CLOCK_HOUR
   \/ current_mode s = SET_CLOCK_HOUR /\ next = SET_CLOCK_MIN
   \/ current_mode s = SET_CLOCK_MIN /\ next = SET_CLOCK_SEC) ->
  core1_step rtc_set_datetime i s = with_current_mode next s.
Proof.
  intros Hs [[Hm ->] | [[Hm ->] | [[Hm ->] | [[Hm ->] | [Hm ->]]]]];
    pick_branch; reflexivity.
Qed.

(** X20: entering the clock wizard and confirming every field with Select,
    without an edit, hands back to the peripheral the very calendar value
    read from it, provided its day is within its month: the last two calls
    are the read and [rtc_set_datetime] of that value, whose verdict is in
    [datetime_set], and the mode is [SET_CLOCK_FINAL]. *)
Theorem unedited_wizard_round_trip (seed : Input) (confirm : list Input)
    (s : State) (d : datetime_t) :
  current_mode s = MENU ->
  menu_index s = 1 ->
  selects seed ->
  rtc_now seed = Some d ->
  day d <= day_num_of d ->
  Forall selects confirm ->
  List.length confirm = 7%nat ->
  let s' := core1_main rtc_set_datetime (seed :: confirm) s in
  current_mode s' = SET_CLOCK_FINAL
  /\ set_date s' = d
  /\ datetime_set s' = rtc_set_datetime d
  /\ rtc_calls s'
     = RtcSetDatetime d (rtc_set_datetime d) :: RtcGetDatetime :: rtc_calls s.
Proof.
  intros Hm Hi Hseed Hnow Hday Hall Hlen.
  do 7 (destruct confirm as [|? confirm]; [discriminate Hlen|]).
  destruct confirm; [|discriminate Hlen].
  repeat match goal with
         | H : Forall _ (_ :: _) |- _ => inversion H; clear H; subst
         end.
  cbn [core1_main].
  rewrite (menu_select_wizard seed s Hm Hi Hseed), Hnow.
  unfold rtc_get_datetime.
  set (s1 := with_menu_index 0 _).
  rewrite (field_select_pass _ s1 SET_CLOCK_MONTH) by (assumption || auto).
  set (s2 := with_current_mode SET_CLOCK_MONTH s1).
  rewrite (month_select_pass rtc_set_datetime _ s2 eq_refl) by assumption.
  replace (Z.min (day (set_date s2)) (day_num_of (set_date s2)))
    with (day d) by (subst s2 s1; cbn; lia).
  set (s3 := with_current_mode SET_CLOCK_DAY _).
  rewrite (field_select_pass _ s3 SET_CLOCK_WEEKDAY)
    by (assumption || auto).
  set (s4 := with_current_mode SET_CLOCK_WEEKDAY s3).
  rewrite (field_select_pass _ s4 SET_CLOCK_HOUR)
    by (assumption || auto 6).
  set (s5 := with_current_mode SET_CLOCK_HOUR s4).
  rewrite (field_select_pass _ s5 SET_CLOCK_MIN)
    by (assumption || auto 8).
  set (s6 := with_current_mode SET_CLOCK_MIN s5).
  rewrite (field_select_pass _ s6 SET_CLOCK_SEC)
    by (assumption || auto 10).
  set (s7 := with_current_mode SET_CLOCK_SEC s6).
  rewrite (clock_commit_pass rtc_set_datetime _ s7 eq_refl)
    by assumption.
  subst s7 s6 s5 s4 s3 s2 s1. destruct d. cbn. repeat split.
Qed.

End ControlLoop.

Lemma idle_pass_changes_nothing_witness :
  buttons (press no_buttons) = no_buttons
  /\ current_mode day_field_entered <> CLOCK
  /\ core1_step fields_in_range (press no_buttons) day_field_entered
     = day_field_entered.
Proof.
  assert (Hm : current_mode day_field_entered <> CLOCK) by discriminate.
  split; [reflexivity|]. split; [exact Hm|].
  apply (idle_pass_changes_nothing fields_in_range (press no_buttons)
           day_field_entered eq_refl Hm).
Defined.

Lemma unedited_wizard_round_trip_witness :
  current_mode (with_menu_index 1 initial_state) = MENU
  /\ menu_index (with_menu_index 1 initial_state) = 1
  /\ selects (press press_select)
  /\ day rtc_date_example <= day_num_of rtc_date_example
  /\ (let s' := core1_main fields_in_range (repeat (press press_select) 8)
                  (with_menu_index 1 initial_state) in
      current_mode s' = SET_CLOCK_FINAL
      /\ set_date s' = rtc_date_example
      /\ datetime_set s' = fields_in_range rtc_date_example
      /\ rtc_calls s'
         = [RtcSetDatetime rtc_date_example
              (fields_in_range rtc_date_example); RtcGetDatetime]).
Proof.
  assert (Hsel : selects (press press_select)) by (repeat split).
  assert (Hday : day rtc_date_example <= day_num_of rtc_date_example)
    by (vm_compute; discriminate).
  assert (Hall : Forall selects (repeat (press press_select) 7)).
  { apply Forall_forall. intros i Hi. apply repeat_spec in Hi. subst i.
    exact Hsel. }
  split; [reflexivity|]. split; [reflexivity|]. split; [exact Hsel|].
  split; [exact Hday|].
  apply (unedited_wizard_round_trip fields_in_range (press press_select)
           (repeat (press press_select) 7) (with_menu_index 1 initial_state)
           rtc_date_example eq_refl eq_refl Hsel eq_refl Hday Hall eq_refl).
Defined.

(** ** With the peripheral running *)

Lemma rtc_runs_delivers i : rtc_runs i -> rtc_delivers_datetime i.
Proof.
  intros (d & Hnow & Hwf). unfold rtc_delivers_datetime. rewrite Hnow.
  exact Hwf.
Qed.

Lemma offsets_in_bounds w :
  0 <= w <= 6 -> exists off, index weekday_pixel_offset w = Some off.
Proof.
  intros Hw.
  assert (Hcases : w = 0 \/ w = 1 \/ w = 2 \/ w = 3 \/ w = 4 \/ w = 5
                   \/ w = 6) by lia.
  repeat (destruct Hcases as [-> | Hcases]); try subst w;
    eexists; reflexivity.
Qed.

Lemma clock_screen_defined d :
  well_formed d -> exists f, clock_screen d = Some f.
Proof.
  intros (_ & Hmo & _ & Hw & _). unfold clock_screen.
  destruct (months_in_bounds _ Hmo) as [mn ->].
  destruct (weekdays_in_bounds _ Hw) as [wn ->].
  destruct (offsets_in_bounds _ Hw) as [off ->].
  eexists. reflexivity.
Qed.

Lemma main_step_defined j s :
  (edits_clock_draft (current_mode s) = true -> draft_in_range (set_date s)) ->
  rtc_delivers_datetime j ->
  exists r, main_step j s = Some r.
Proof.
  intros Hd Hj. unfold main_step.
  destruct (alarm_fired s); [destruct (_ <? 8); eexists; reflexivity|].
  unfold mode_is, mode_between, rtc_get_datetime, rtc_delivers_datetime in *.
  destruct (current_mode s) eqn:Hm; cbn [mode_code Z.eqb Z.leb Z.compare
    Pos.eqb Pos.compare Pos.compare_cont andb];
    try (eexists; reflexivity).
  - destruct (rtc_now j) as [d|]; [|eexists; reflexivity].
    cbn [date with_date log_call].
    destruct (clock_screen_defined d Hj) as [f ->]. eexists. reflexivity.
  - destruct (set_clock_screen_defined s (Hd eq_refl)) as [f ->].
    eexists. reflexivity.
  - destruct (set_clock_screen_defined s (Hd eq_refl)) as [f ->].
    eexists. reflexivity.
  - destruct (set_clock_screen_defined s (Hd eq_refl)) as [f ->].
    eexists. reflexivity.
  - destruct (set_clock_screen_defined s (Hd eq_refl)) as [f ->].
    eexists. reflexivity.
  - destruct (set_clock_screen_defined s (Hd eq_refl)) as [f ->].
    eexists. reflexivity.
  - destruct (set_clock_screen_defined s (Hd eq_refl)) as [f ->].
    eexists. reflexivity.
  - destruct (set_clock_screen_defined s (Hd eq_refl)) as [f ->].
    eexists. reflexivity.
Qed.

Section Running.

Variable rtc_set_datetime : datetime_t -> bool.

Lemma clock_draft_ok_pass i s :
  rtc_delivers_datetime i -> clock_draft_ok s ->
  clock_draft_ok (core1_step rtc_set_datetime i s).
Proof.
  intros Hi (Hy & Hr & H1 & Hck).
  destruct (day_bound_pass rtc_set_datetime i s Hi H1 Hck) as [H1' Hck'].
  split; [apply year_range_pass; assumption|].
  split; [apply draft_in_range_pass; assumption|].
  split; assumption.
Qed.

(** The clock wizard is entered by seeding the draft, and in no other way. *)
Lemma wizard_entered i s d :
  rtc_now i = Some d ->
  edits_clock_draft (current_mode s) = false ->
  edits_clock_draft (current_mode (core1_step rtc_set_datetime i s)) = true ->
  set_date (core1_step rtc_set_datetime i s) = d
  /\ current_mode (core1_step rtc_set_datetime i s) = SET_CLOCK_YEAR.
Proof.
  by_mode_and_buttons s i; cbn [edits_clock_draft]; intros Hnow Hout;
    try discriminate Hout;
    unfold rtc_get_datetime; rewrite ?Hnow;
    globals_cbn;
    repeat (match goal with
            | |- context [if ?c then _ else _] => destruct c eqn:?
            end; globals_cbn);
    cbn [edits_clock_draft]; intros Hin; try discriminate Hin;
    split; reflexivity.
Qed.

(** The confirmation screen of the clock wizard is entered by the commit,
    and in no other way. *)
Lemma clock_final_entered i s :
  current_mode (core1_step rtc_set_datetime i s) = SET_CLOCK_FINAL ->
  (current_mode s = SET_CLOCK_FINAL
   /\ datetime_set (core1_step rtc_set_datetime i s) = datetime_set s)
  \/ (current_mode s = SET_CLOCK_SEC
      /\ datetime_set (core1_step rtc_set_datetime i s)
         = rtc_set_datetime (set_date s)).
Proof.
  by_mode_and_buttons s i;
    unfold rtc_get_datetime; try (destruct now);
    globals_cbn;
    repeat (match goal with
            | |- context [if ?c then _ else _] => destruct c eqn:?
            end; globals_cbn);
    intros Hin; try discriminate Hin;
    first [left; split; reflexivity | right; split; reflexivity].
Qed.

Lemma clock_draft_well_formed s :
  clock_draft_ok s -> day_checked (current_mode s) = true ->
  well_formed (set_date s).
Proof.
  intros (Hy & Hr & H1 & Hck) Hc. specialize (Hck Hc).
  rewrite day_num_of_plain in Hck by (assumption || apply Hr).
  destruct Hr as (Hmo & Hw & Hh & Hmi & Hs).
  unfold well_formed. repeat match goal with |- _ /\ _ => split end;
    assumption || lia.
Qed.

Lemma running_invariants s :
  Reachable_running rtc_set_datetime s ->
  (edits_clock_draft (current_mode s) = true -> clock_draft_ok s)
  /\ ((forall t, well_formed t -> rtc_set_datetime t = true) ->
      current_mode s = SET_CLOCK_FINAL -> datetime_set s = true).
Proof.
  induction 1 as [|i s Hs IH Hi|j s s' f Hs IH Hj Hstep
                  |j s0 s0' f s Hs0 IH0 Hj Hstep Hs IH|j s Hs IH Hj
                  |s Hs IH|s Hs IH|s Hs IH
                  |fuel select clock start s n s' Hs IH Hcb].
  - split; intros; discriminate.
  - destruct IH as [Hd Hf]. split.
    + intros Hin.
      destruct (edits_clock_draft (current_mode s)) eqn:Hwas.
      * apply clock_draft_ok_pass; [apply rtc_runs_delivers, Hi|].
        apply Hd. reflexivity.
      * destruct Hi as (d & Hnow & Hwf).
        destruct (wizard_entered i s d Hnow Hwas Hin) as [Hsd Hm].
        unfold clock_draft_ok. rewrite Hsd, Hm.
        destruct Hwf as (Hy & Hmo & Hday & Hrest).
        split; [exact Hy|]. split; [split; assumption|].
        split; [lia|discriminate].
    + intros Hacc Hin.
      destruct (clock_final_entered i s Hin) as [[Hm ->] | [Hm ->]].
      * apply Hf; assumption.
      * apply Hacc. apply clock_draft_well_formed.
        -- apply Hd. rewrite Hm. reflexivity.
        -- rewrite Hm. reflexivity.
  - destruct IH as [Hd Hf].
    destruct (main_step_cases j s s' f Hstep)
      as [-> | [(_ & _ & ->) | [(_ & ->) | ->]]];
      try (split; assumption).
    unfold rtc_get_datetime. destruct (rtc_now j); split; assumption.
  - exact IH.
  - unfold rtc_get_datetime. destruct (rtc_now j); exact IH.
  - exact IH.
  - exact IH.
  - exact IH.
  - unfold alarm_callback in Hcb.
    destruct (alarm_cleared_at fuel select clock start);
      inversion Hcb; subst.
    exact IH.
Qed.

(** X21: while the peripheral keeps running and delivers a [DateTime] at
    every read, every pass of the display loop is defined in every
    reachable state: it never reads [months], [weekdays] or
    [weekday_pixel_offset] out of bounds. *)
Theorem display_defined_while_running (j : Input) (s : State) :
  Reachable_running rtc_set_datetime s ->
  rtc_runs j ->
  exists s' f, main_step j s = Some (s', f).
Proof.
  intros Hs Hj. destruct (running_invariants s Hs) as [Hd _].
  destruct (main_step_defined j s) as [[s' f] Hr].
  - intros Hin. apply (Hd Hin).
  - apply rtc_runs_delivers, Hj.
  - exists s', f. exact Hr.
Qed.

(** X22: while the peripheral keeps running, the draft the clock wizard
    commits is always a well-formed [DateTime]; so with a peripheral that
    accepts every well-formed [DateTime], [datetime_set] is true whenever
    the mode is [SET_CLOCK_FINAL], and the INVALID DATE screen is never
    shown. *)
Theorem invalid_date_unreachable_while_running (j : Input) (s : State) :
  Reachable_running rtc_set_datetime s ->
  (forall t, well_formed t -> rtc_set_datetime t = true) ->
  (current_mode s = SET_CLOCK_SEC -> well_formed (set_date s))
  /\ (current_mode s = SET_CLOCK_FINAL ->
      datetime_set s = true
      /\ (alarm_fired s = false ->
          main_step j s
          = Some (s, [Print 30 8 (Lit "CLOCK"); Print 30 32 (Lit "IS SET")]))).
Proof.
  intros Hs Hacc. destruct (running_invariants s Hs) as [Hd Hf]. split.
  - intros Hm. apply clock_draft_well_formed.
    + apply Hd. rewrite Hm. reflexivity.
    + rewrite Hm. reflexivity.
  - intros Hm. pose proof (Hf Hacc Hm) as Hset. split; [exact Hset|].
    intros Hfired. unfold main_step, mode_is, mode_between.
    rewrite Hfired, Hm, Hset. reflexivity.
Qed.

End Running.

Lemma rtc_runs_press b : rtc_runs (press b).
Proof.
  exists rtc_date_example. split; [reflexivity|].
  unfold well_formed. cbn. lia.
Qed.

Lemma running_core1_main inputs : forall s,
  Reachable_running fields_in_range s ->
  Forall rtc_runs inputs ->
  Reachable_running fields_in_range (core1_main fields_in_range inputs s).
Proof.
  induction inputs as [|i rest IH]; intros s Hs Hall; [exact Hs|].
  inversion Hall; subst. cbn [core1_main]. apply IH; [|assumption].
  apply running_core1; assumption.
Qed.

Lemma fields_in_range_accepts t :
  well_formed t -> fields_in_range t = true.
Proof.
  intros (Hy & Hmo & Hd & Hw & Hh & Hmi & Hs).
  pose proof (number_of_days_range (year t) (month t)) as Hdn.
  unfold fields_in_range.
  repeat (apply andb_true_intro; split); apply Z.leb_le; lia.
Qed.

Lemma day_field_entered_running :
  Reachable_running fields_in_range day_field_entered.
Proof.
  change day_field_entered
    with (core1_main fields_in_range
            [press press_right; press press_select; press press_select;
             press press_right; press press_select] initial_state).
  apply running_core1_main; [apply running_power_up|].
  repeat (apply Forall_cons; [apply rtc_runs_press|]). apply Forall_nil.
Qed.

Lemma display_defined_while_running_witness :
  Reachable_running fields_in_range day_field_entered
  /\ rtc_runs (press no_buttons)
  /\ exists s' f, main_step (press no_buttons) day_field_entered = Some (s', f).
Proof.
  split; [exact day_field_entered_running|].
  split; [apply rtc_runs_press|].
  apply (display_defined_while_running fields_in_range (press no_buttons)
           day_field_entered day_field_entered_running
           (rtc_runs_press no_buttons)).
Defined.

Lemma invalid_date_unreachable_while_running_witness :
  Reachable_running fields_in_range
    (core1_main fields_in_range (repeat (press press_select) 5)
       day_field_entered)
  /\ (forall t, well_formed t -> fields_in_range t = true)
  /\ current_mode
       (core1_main fields_in_range (repeat (press press_select) 5)
          day_field_entered) = SET_CLOCK_FINAL
  /\ datetime_set
       (core1_main fields_in_range (repeat (press press_select) 5)
          day_field_entered) = true.
Proof.
  assert (Hr : Reachable_running fields_in_range
                 (core1_main fields_in_range (repeat (press press_select) 5)
                    day_field_entered)).
  { apply running_core1_main; [exact day_field_entered_running|].
    apply Forall_forall. intros i Hi. apply repeat_spec in Hi. subst i.
    apply rtc_runs_press. }
  split; [exact Hr|]. split; [exact fields_in_range_accepts|].
  split; [vm_compute; reflexivity|].
  apply (invalid_date_unreachable_while_running fields_in_range
           (press no_buttons) _ Hr fields_in_range_accepts).
  vm_compute. reflexivity.
Defined.
